(** * CloudPRNT emulator: a shallow embedding in Rocq

    The embedding follows the JavaScript sources:
    - [lib/starprnt.js] ([convertStarprntToPng], the StarPRNT raster decoder);
    - the combined emulator (HTTP polling, settings negotiation, MQTT);
    - the standalone text/plain polling emulator [index.js].

    External collaborators (fetch, lodepng, rotate-image-data, the file
    system, the MQTT client) are modelled as oracles: records of functions
    giving the outcome of each call, so that every theorem holds for every
    behaviour of the network and the libraries. *)

From Stdlib Require Import ZArith List String Ascii Bool Lia.
From Stdlib Require Import Strings.Byte.
Import ListNotations.

(** ** Exceptions and results *)

(** The kinds of JavaScript exception that the code throws or receives. *)
Inductive exn : Type :=
| TransportError        (* fetch rejected, or a non-2xx response *)
| MalformedRasterError  (* [throw new Error('Unimplemented StarPRNT data')] *)
| UnsupportedMediaTypeError
| UnsupportedJobTypeError
| UnsupportedModeError  (* Trigger POST requested by the server *)
| ServerError           (* settings endpoint answered 5xx three times *)
| UnexpectedResponse    (* settings endpoint answered another status *)
| JsonError             (* [response.json()] rejected *)
| TypeError             (* property access or call on [undefined] *)
| LibraryError          (* lodepng, writeFileSync, publishAsync, ... *)
.

Inductive result (A : Type) : Type :=
| Ok (a : A)
| Err (e : exn).
Arguments Ok {A} a.
Arguments Err {A} e.

(** ** The StarPRNT raster decoder ([convertStarprntToPng]) *)

Module StarPRNT.

Local Open Scope Z_scope.

(** [data[i]] on a [Uint8Array]: [undefined] past the end. *)
Definition byte_at (data : list byte) (i : nat) : option Z :=
  option_map (fun b => Z.of_N (Byte.to_N b)) (nth_error data i).

(** [data[i] !== c]: [undefined] differs from every number. *)
Definition js_neq (v : option Z) (c : Z) : bool :=
  match v with
  | Some z => negb (z =? c)
  | None => true
  end.

(** The operand of [>>] after ToInt32: [undefined] becomes [0]. *)
Definition to_int32 (v : option Z) : Z :=
  match v with
  | Some z => z
  | None => 0
  end.

(** A store [a[i] = v] into a typed array: out-of-range stores are ignored. *)
Fixpoint set_nth (l : list Z) (i : nat) (v : Z) : list Z :=
  match l, i with
  | [], _ => []
  | _ :: t, O => v :: t
  | h :: t, S i' => h :: set_nth t i' v
  end.

(** [(data[(inPtr / 8) | 0] >> (7 - (inPtr % 8))) & 1 ? 0 : 255] *)
Definition pixel_at (data : list byte) (inPtr : nat) : Z :=
  if Z.land (Z.shiftr (to_int32 (byte_at data (inPtr / 8)%nat))
                      (Z.of_nat (7 - inPtr mod 8)%nat)) 1 =? 0
  then 255 else 0.

(** The local variables of the decoding loop, together with the history of
    byte indices it read and the number of iterations it ran. *)
Record loop_state : Type := {
  outPtr : nat;
  inPtr : nat;
  pixelData : list Z;
  reads : list nat;
  iterations : nat
}.

(** [for (let outPtr = 0, inPtr = (9 * 8); outPtr < pixelData.length; inPtr++)]
    with its four stores; [fuel] bounds the number of iterations. *)
Fixpoint fill_loop (fuel : nat) (data : list byte) (len : nat)
    (st : loop_state) : loop_state :=
  match fuel with
  | O => st
  | S f =>
      if (outPtr st <? len)%nat then
        let pixel := pixel_at data (inPtr st) in
        let o := outPtr st in
        let buf := set_nth (set_nth (set_nth (set_nth (pixelData st)
                     o pixel) (o + 1)%nat pixel) (o + 2)%nat pixel) (o + 3)%nat 255 in
        fill_loop f data len
          {| outPtr := (o + 4)%nat; inPtr := S (inPtr st); pixelData := buf;
             reads := reads st ++ [(inPtr st / 8)%nat];
             iterations := S (iterations st) |}
      else st
  end.

(** The header test of line 10. *)
Definition header_mismatch (data : list byte) : bool :=
  js_neq (byte_at data 0) 27 || js_neq (byte_at data 1) 29 ||
  js_neq (byte_at data 2) 83 || js_neq (byte_at data 3) 1 ||
  js_neq (byte_at data 8) 0.

Definition header_height (data : list byte) : Z :=
  to_int32 (byte_at data 6) + Z.shiftl (to_int32 (byte_at data 7)) 8.

Definition header_widthBytes (data : list byte) : Z :=
  to_int32 (byte_at data 4) + Z.shiftl (to_int32 (byte_at data 5)) 8.

(** The loop run on a buffer of [len] zero bytes ([new Uint8Array(len)]).
    Every iteration advances [outPtr] by 4, so [len] bounds the fuel. *)
Definition decode_loop (data : list byte) (len : nat) : loop_state :=
  fill_loop len data len
    {| outPtr := 0; inPtr := (9 * 8)%nat; pixelData := repeat 0 len;
       reads := []; iterations := 0 |}.

Record ImageData : Type := {
  img_data : list Z;
  img_width : Z;
  img_height : Z
}.

(** Lines 10-28 of [convertStarprntToPng]: the [imageData] object built
    before the (external) rotation and PNG encoding. *)
Definition starprnt_image (data : list byte) : result ImageData :=
  if header_mismatch data then Err MalformedRasterError
  else
    let height := header_height data in
    let widthBytes := header_widthBytes data in
    let width := widthBytes * 8 in
    let len := Z.to_nat (width * height * 4) in
    Ok {| img_data := pixelData (decode_loop data len);
          img_width := width; img_height := height |}.

(** [convertStarprntToPng(data, rotate180)]: the image, rotated by the
    [rotate-image-data] library when asked, then encoded by [lodepng.encode];
    both libraries are parameters. *)
Definition convertStarprntToPng (encode : ImageData -> result (list byte))
    (rotate : ImageData -> ImageData) (data : list byte) (rotate180 : bool)
    : result (list byte) :=
  match starprnt_image data with
  | Err e => Err e
  | Ok imageData => encode (if rotate180 then rotate imageData else imageData)
  end.

(** Reading a decoded image: the four channels of pixel (x, y). *)
Definition pixel_rgba (img : ImageData) (x y : nat) : list Z :=
  firstn 4 (skipn (4 * (y * Z.to_nat (img_width img) + x)) (img_data img)).

(** Bit [p] of the byte stream, most significant bit first within a byte;
    a byte past the end of the buffer counts as 0. *)
Definition stream_bit (data : list byte) (p : nat) : bool :=
  Z.testbit (to_int32 (byte_at data (p / 8)%nat)) (Z.of_nat (7 - p mod 8)%nat).

Definition rgba_of_bit (b : bool) : list Z :=
  if b then [0; 0; 0; 255] else [255; 255; 255; 255].

(** The magic header: bytes 0..3 and 8 fixed, 4..7 free. *)
Definition header (b4 b5 b6 b7 : byte) : list byte :=
  [x1b; x1d; x53; x01; b4; b5; b6; b7; x00].

Definition byte_Z (b : byte) : Z := Z.of_N (Byte.to_N b).

(** The four channels that iteration [k] of the loop stores. *)
Definition quad (data : list byte) (k : nat) : list Z :=
  let p := pixel_at data (72 + k)%nat in [p; p; p; 255].

End StarPRNT.


(** ** Effects: requests, publications and exceptions *)

(** A value in the answer to a [clientAction] request. *)
Inductive ca_value : Type :=
| CANum (z : Z)
| CAStr (s : string).

(** The messages published on the MQTT session. *)
Inductive mqtt_msg : Type :=
| ClientStatus (printingInProgress : bool)
| PrintResult (jobToken : option string) (printSucceeded : bool) (statusCode : string).

(** The externally visible actions, in the order the code issues them. *)
Inductive event : Type :=
| EvPost (clientAction : option (list (string * ca_value)))
    (* POST to the poll URL; [Some] for the clientAction follow-up *)
| EvGet (type : string) (token : option string)
| EvDelete (code : string) (token : option string)
| EvWrite                        (* writeFileSync of an output file *)
| EvSleep (ms : Z)               (* await setTimeout(ms) *)
| EvSettingsGet                  (* GET .../cloudprnt-setting.json *)
| EvPublish (m : mqtt_msg).

Module Js.

(** The state threaded through an async function: the actions issued so far
    and the function's one mutable local ([code] or [statusCode]). *)
Record St : Type := {
  trace : list event;
  code : string
}.

(** An async function: it resolves with a value or rejects with an exception. *)
Definition M (A : Type) : Type := St -> result A * St.

Definition ret {A} (a : A) : M A := fun s => (Ok a, s).

Definition bind {A B} (m : M A) (k : A -> M B) : M B :=
  fun s => match m s with
           | (Ok a, s') => k a s'
           | (Err e, s') => (Err e, s')
           end.

Definition throw {A} (e : exn) : M A := fun s => (Err e, s).

(** An awaited call whose outcome is already known. *)
Definition lift {A} (r : result A) : M A := fun s => (r, s).

Definition emit (e : event) : M unit :=
  fun s => (Ok tt, {| trace := trace s ++ [e]; code := code s |}).

Definition set_code (c : string) : M unit :=
  fun s => (Ok tt, {| trace := trace s; code := c |}).

Definition get_code : M string := fun s => (Ok (code s), s).

(** [obj.field.method(...)] on a field that may be [undefined]. *)
Definition deref {A} (o : option A) : M A :=
  match o with
  | Some a => ret a
  | None => throw TypeError
  end.

(** [try { m } finally { fin }]: an exception of [fin] replaces the outcome
    of [m]; otherwise the outcome of [m] stands. *)
Definition try_finally {A} (m : M A) (fin : M unit) : M A :=
  fun s => let (r, s1) := m s in
           let (r2, s2) := fin s1 in
           match r2 with
           | Err e => (Err e, s2)
           | Ok _ => (r, s2)
           end.

(** [try { m } catch (error) { h }]. *)
Definition try_catch {A} (m : M A) (h : exn -> M A) : M A :=
  fun s => match m s with
           | (Err e, s1) => h e s1
           | ok => ok
           end.

Definition sleep (ms : Z) : M unit := emit (EvSleep ms).

Module Notations.
Notation "x <- m ;; k" := (bind m (fun x => k))
  (at level 61, m at next level, right associativity).
Notation "m ;; k" := (bind m (fun _ => k))
  (at level 61, right associativity).
End Notations.

End Js.

Import Js.Notations.

(** [Array.prototype.includes] on an array of strings. *)
Definition includes (l : list string) (x : string) : bool :=
  existsb (String.eqb x) l.

(** ** HTTP polling transport of the combined emulator ([runHttpPolling]) *)

Module HttpPolling.
Import Js.
Local Open Scope string_scope.
Local Open Scope list_scope.

(** The JSON answer to the status POST. An absent field is [None]. *)
Record PollStatus : Type := {
  jobReady : bool;
  jobToken : option string;
  mediaTypes : option (list string);
  clientAction : option (list (option string))  (* the [request] fields *)
}.

(** The outcomes of the calls to fetch and to the libraries. *)
Record http_env : Type := {
  on_post : result PollStatus;                 (* status POST, response.json() *)
  on_post_action : result unit;                (* clientAction follow-up POST *)
  on_get : string -> result (list byte);       (* job GET, by media type *)
  on_delete : string -> result unit;           (* acknowledgment, by code *)
  png_encode : StarPRNT.ImageData -> result (list byte);   (* lodepng.encode *)
  png_decode : list byte -> result StarPRNT.ImageData;     (* lodepng.decode *)
  rotate : StarPRNT.ImageData -> StarPRNT.ImageData;       (* rotate(img, 180) *)
  on_write : list byte -> result unit          (* writeFileSync *)
}.

Definition starprnt_type : string := "application/vnd.star.starprnt".
Definition png_type : string := "image/png".

(** [post(url)]: the fixed "not printing" status body. *)
Definition post (env : http_env) : M PollStatus :=
  emit (EvPost None) ;; lift (on_post env).

(** [get(url, jobToken, type)] *)
Definition get (env : http_env) (jobToken : option string) (type : string)
    : M (list byte) :=
  emit (EvGet type jobToken) ;; lift (on_get env type).

(** [delete_(url, code, jobToken)] *)
Definition delete_ (env : http_env) (c : string) (jobToken : option string)
    : M unit :=
  emit (EvDelete c jobToken) ;; lift (on_delete env c).

Definition write (env : http_env) (data : list byte) : M unit :=
  emit EvWrite ;; lift (on_write env data).

(** Lines 304-324: the job servicing inside [try]. *)
Definition service_body (env : http_env) (rotate180 : bool) (status : PollStatus)
    : M unit :=
  (match mediaTypes status with
   | Some mt =>
       if negb (includes mt starprnt_type || includes mt png_type)
       then set_code "510" ;; throw UnsupportedMediaTypeError
       else ret tt
   | None => ret tt
   end) ;;
  mt <- deref (mediaTypes status) ;;
  pngData <- (if includes mt starprnt_type
              then raw <- get env (jobToken status) starprnt_type ;;
                   lift (StarPRNT.convertStarprntToPng (png_encode env)
                           (rotate env) raw false)
              else get env (jobToken status) png_type) ;;
  pngData <- (if rotate180
              then imageData <- lift (png_decode env pngData) ;;
                   lift (png_encode env (rotate env imageData))
              else ret pngData) ;;
  write env pngData ;;
  set_code "200".

(** One iteration of [while (true)] in [runHttpPolling]. *)
Definition http_iteration (env : http_env) (delay : Z) (rotate180 : bool)
    : M unit :=
  try_catch
    (status <- post env ;;
     if negb (jobReady status) then sleep delay
     else
       set_code "500" ;;
       try_finally (service_body env rotate180 status)
         (c <- get_code ;; delete_ env c (jobToken status)))
    (fun _ => sleep delay).

End HttpPolling.

(** ** The standalone text/plain polling emulator ([index.js]) *)

Module Standalone.
Import Js HttpPolling.
Local Open Scope string_scope.
Local Open Scope list_scope.

(** The [switch] on [status.clientAction[i].request]. *)
Definition answer (delay : Z) (request : option string)
    : option (string * ca_value) :=
  match request with
  | None => None          (* typeof request === "undefined" *)
  | Some r =>
      if String.eqb r "GetPollInterval" then Some ("GetPollInterval", CANum delay)
      else if String.eqb r "Encodings" then Some ("Encodings", CAStr "text/plain")
      else if String.eqb r "ClientType" then Some ("ClientType", CAStr "Star Printer Emulator")
      else if String.eqb r "ClientVersion" then Some ("ClientVersion", CAStr "HIX")
      else None
  end.

(** The [for] loop pushing onto [data.clientAction]. *)
Definition client_action_answers (delay : Z) (requests : list (option string))
    : list (string * ca_value) :=
  fold_left (fun acc r => match answer delay r with
                          | Some a => acc ++ [a]
                          | None => acc
                          end) requests [].

(** [post(url, data)] with [data = { clientAction: [...] }]. *)
Definition post_actions (env : http_env) (answers : list (string * ca_value))
    : M unit :=
  emit (EvPost (Some answers)) ;; lift (on_post_action env).

(** One iteration of [while (true)] in [index.js]. *)
Definition iteration (env : http_env) (delay : Z) : M unit :=
  try_catch
    (status <- post env ;;
     if negb (jobReady status) then
       (match clientAction status with
        | Some l => if (0 <? List.length l)%nat
                    then post_actions env (client_action_answers delay l)
                    else ret tt
        | None => ret tt
        end) ;;
       sleep delay
     else
       set_code "500" ;;
       try_finally
         ((match mediaTypes status with
           | Some mt => if negb (includes mt "text/plain")
                        then set_code "510" ;; throw UnsupportedMediaTypeError
                        else ret tt
           | None => ret tt
           end) ;;
          data <- get env (jobToken status) "text/plain" ;;
          write env data ;;
          set_code "200")
         (c <- get_code ;; delete_ env c (jobToken status)))
    (fun _ => sleep delay).

(** The canned answers the specification lists for [clientAction]
    requests; the supported media type of this emulator is text/plain. *)
Definition canned (delay : Z) : list (string * ca_value) :=
  [("GetPollInterval", CANum delay); ("Encodings", CAStr "text/plain");
   ("ClientType", CAStr "Star Printer Emulator"); ("ClientVersion", CAStr "HIX")].

(** Per the specification, one request: a recognized name gets its canned
    answer, anything else is skipped. *)
Definition spec_answer (delay : Z) (request : option string)
    : list (string * ca_value) :=
  match request with
  | Some r => match find (fun p => String.eqb (fst p) r) (canned delay) with
              | Some p => [p]
              | None => []
              end
  | None => []
  end.

End Standalone.

(** ** MQTT push transport ([handlePrintJob]) *)

Module Mqtt.
Import Js.
Local Open Scope string_scope.
Local Open Scope list_scope.

(** The fields of a [print-job] message; an absent field is [None]. The
    base64 payload is given decoded ([Buffer.from(s, 'base64')] accepts any
    string); an absent [printData] makes [Buffer.from] throw. *)
Record PrintJob : Type := {
  pj_jobToken : option string;
  pj_jobType : option string;
  pj_mediaTypes : option (list string);
  pj_printData : option (list byte)
}.

Record mqtt_env : Type := {
  on_publish : mqtt_msg -> result unit;                    (* publishAsync *)
  png_encode : StarPRNT.ImageData -> result (list byte);   (* lodepng.encode *)
  rotate : StarPRNT.ImageData -> StarPRNT.ImageData;       (* rotate(img, 180) *)
  on_write : list byte -> result unit                      (* writeFileSync *)
}.

Definition starprnt_type : string := "application/vnd.star.starprnt".

Definition publish (env : mqtt_env) (m : mqtt_msg) : M unit :=
  emit (EvPublish m) ;; lift (on_publish env m).

(** [jobType !== 'raw'] *)
Definition not_raw (jobType : option string) : bool :=
  match jobType with
  | Some t => negb (String.eqb t "raw")
  | None => true
  end.

(** [!mediaTypes || mediaTypes.length !== 1 || !mediaTypes.includes(...)] *)
Definition bad_media (mediaTypes : option (list string)) : bool :=
  match mediaTypes with
  | None => true
  | Some l => negb (List.length l =? 1)%nat || negb (includes l starprnt_type)
  end.

(** Lines 448-466: the [try] block of [handlePrintJob]. *)
Definition print_job_body (env : mqtt_env) (rotate180 : bool) (payload : PrintJob)
    : M unit :=
  publish env (ClientStatus true) ;;
  (if not_raw (pj_jobType payload)
   then set_code "500" ;; throw UnsupportedJobTypeError
   else ret tt) ;;
  (if bad_media (pj_mediaTypes payload)
   then set_code "510" ;; throw UnsupportedMediaTypeError
   else ret tt) ;;
  rawData <- deref (pj_printData payload) ;;
  pngData <- lift (StarPRNT.convertStarprntToPng (png_encode env) (rotate env)
                     rawData rotate180) ;;
  emit EvWrite ;; lift (on_write env pngData) ;;
  set_code "200".

(** [handlePrintJob(payload, pollUrl, client, serverTopicPrefix, rotate180)] *)
Definition handlePrintJob (env : mqtt_env) (rotate180 : bool) (payload : PrintJob)
    : M unit :=
  set_code "500" ;;
  try_finally (print_job_body env rotate180 payload)
    (statusCode <- get_code ;;
     publish env (PrintResult (pj_jobToken payload)
                    (String.prefix "200" statusCode) statusCode) ;;
     publish env (ClientStatus false)).

End Mqtt.

(** ** Capability negotiation ([getServerSettings], [parseServerSettings]) *)

Module Settings.
Import Js.
Local Open Scope string_scope.
Local Open Scope list_scope.

Record ConnSetting : Type := {
  hostName : option string;
  portNumber : option Z;
  useTls : option bool
}.

Record SettingForMQTT : Type := {
  useTriggerPOST : option bool;
  mqttConnectionSetting : option ConnSetting
}.

(** The JSON body of cloudprnt-setting.json; an absent field is [None]. *)
Record ServerSettings : Type := {
  serverSupportProtocol : option (list string);
  settingForMQTT : option SettingForMQTT
}.

(** The value [getServerSettings] resolves with; [NegUndefined] is the
    [undefined] of falling out of the [for] loop. *)
Inductive negotiation : Type :=
| NegHttp                                   (* { useMQTT: false } *)
| NegMqtt (mqttSettings : option ConnSetting)  (* { useMQTT: true, ... } *)
| NegUndefined.

Definition parseServerSettings (settings : ServerSettings) : result negotiation :=
  let serverSupportProtocol :=
    match serverSupportProtocol settings with Some l => l | None => [] end in
  let settingForMQTT :=
    match settingForMQTT settings with
    | Some m => m
    | None => {| useTriggerPOST := None; mqttConnectionSetting := None |}
    end in
  if negb (includes serverSupportProtocol "MQTT") then Ok NegHttp
  else match useTriggerPOST settingForMQTT with
       | Some true => Err UnsupportedModeError
       | _ => Ok (NegMqtt (mqttConnectionSetting settingForMQTT))
       end.

(** A response: its status and what [response.json()] gives. *)
Record Response : Type := {
  status : Z;
  json : result ServerSettings
}.

(** The outcome of the settings GET at each attempt (1, 2, 3). *)
Definition settings_env : Type := nat -> result Response.

(** The [try] block of one attempt; [None] stands for [continue]. *)
Definition attempt_body (env : settings_env) (attempt : nat)
    : M (option negotiation) :=
  emit EvSettingsGet ;;
  response <- lift (env attempt) ;;
  if (status response =? 404)%Z then ret (Some NegHttp)
  else if (status response =? 200)%Z then
    settings <- lift (json response) ;;
    r <- lift (parseServerSettings settings) ;;
    ret (Some r)
  else if (500 <=? status response)%Z then
    (if (attempt <? 3)%nat then sleep 5000 ;; ret None
     else throw ServerError)
  else throw UnexpectedResponse.

(** [for (let attempt = 1; attempt <= 3; attempt++) { try ... catch ... }] *)
Fixpoint settings_loop (env : settings_env) (fuel attempt : nat)
    : M negotiation :=
  match fuel with
  | O => ret NegUndefined
  | S f =>
      if (attempt <=? 3)%nat then
        r <- try_catch (attempt_body env attempt)
               (fun error => if (attempt =? 3)%nat then throw error
                             else sleep 5000 ;; ret None) ;;
        match r with
        | Some v => ret v
        | None => settings_loop env f (S attempt)
        end
      else ret NegUndefined
  end.

Definition getServerSettings (env : settings_env) : M negotiation :=
  settings_loop env 3 1.

End Settings.

(** ** Session orchestration (the top-level [try] block) *)

Module Orchestrator.

(** The events the MQTT client delivers to the handlers of [runMqttMode]. *)
Inductive client_event : Type :=
| CEConnect                 (* 'connect' *)
| CESubscribed (err : bool) (* the callback of client.subscribe *)
| CEMessage                 (* 'message' *)
| CEError                   (* 'error' *)
| CEClose.                  (* 'close' *)

(** The promise returned by [runMqttMode]. *)
Inductive promise : Type := Pending | Rejected.

(** [reject(err)] settles a pending promise; later calls do nothing. *)
Definition reject (p : promise) : promise := Rejected.

Definition mqtt_handler (p : promise) (ev : client_event) : promise :=
  match ev with
  | CESubscribed true => reject p   (* if (err) { reject(err) } *)
  | CEError => reject p             (* client.on('error', ... reject(err)) *)
  | _ => p                          (* 'connect', 'message', 'close' *)
  end.

(** Where the top-level code is: awaiting [runMqttMode], inside
    [runHttpPolling], or terminated by an exception. *)
Inductive mode : Type :=
| MqttMode (p : promise)
| HttpMode
| Exited.

(** [if (serverSettings.useMQTT) ... else ...]; with no
    [mqttConnectionSetting], [runMqttMode] throws on
    [mqttSettings.hostName] before creating the promise, and the [catch]
    runs [runHttpPolling]. *)
Definition start (n : result Settings.negotiation) : mode :=
  match n with
  | Ok (Settings.NegMqtt (Some _)) => MqttMode Pending
  | Ok (Settings.NegMqtt None) => HttpMode
  | Ok Settings.NegHttp => HttpMode
  | Ok Settings.NegUndefined => Exited  (* undefined.useMQTT throws *)
  | Err _ => Exited
  end.

(** [try { await runMqttMode(...) } catch { await runHttpPolling(...) }];
    [runHttpPolling] never returns. *)
Definition orch_step (m : mode) (ev : client_event) : mode :=
  match m with
  | MqttMode p =>
      match mqtt_handler p ev with
      | Rejected => HttpMode
      | Pending => MqttMode Pending
      end
  | HttpMode => HttpMode
  | Exited => Exited
  end.

Definition orch_run (m : mode) (evs : list client_event) : mode :=
  fold_left orch_step evs m.

End Orchestrator.

(** ** The PNG-only polling emulator (the first program of [part_000]) *)

Module PngOnly.
Import Js HttpPolling.
Local Open Scope string_scope.
Local Open Scope list_scope.

(** One iteration of [while (true)] (lines 85-117): it asks for
    [image/png] only, and a missing [mediaTypes] does not stop the job. *)
Definition iteration (env : http_env) (delay : Z) (rotate180 : bool) : M unit :=
  try_catch
    (status <- post env ;;
     if negb (jobReady status) then sleep delay
     else
       set_code "500" ;;
       try_finally
         ((match mediaTypes status with
           | Some mt => if negb (includes mt png_type)
                        then set_code "510" ;; throw UnsupportedMediaTypeError
                        else ret tt
           | None => ret tt
           end) ;;
          pngData <- get env (jobToken status) png_type ;;
          pngData <- (if rotate180
                      then imageData <- lift (png_decode env pngData) ;;
                           lift (png_encode env (rotate env imageData))
                      else ret pngData) ;;
          write env pngData ;;
          set_code "200")
         (c <- get_code ;; delete_ env c (jobToken status)))
    (fun _ => sleep delay).

End PngOnly.

(** ** The settings endpoint's URL ([getServerSettings], lines 157-166) *)

Module SettingsUrl.
Local Open Scope string_scope.
Local Open Scope list_scope.

Definition PRINTER_MAC : string := "00:00:00:00:00:00".

(** The parts of a [URL] that the derivation touches; the scheme, host and
    port are kept as they are. *)
Record url : Type := {
  pathname : string;
  searchParams : list (string * string)
}.

(** [s.split('/')] *)
Fixpoint split_slash (s : string) : list string :=
  match s with
  | EmptyString => [""]
  | String c rest =>
      let parts := split_slash rest in
      if Ascii.eqb c "/"%char then "" :: parts
      else match parts with
           | p :: ps => String c p :: ps
           | [] => [String c ""]
           end
  end.

(** [l.join('/')] *)
Fixpoint join_slash (l : list string) : string :=
  match l with
  | [] => ""
  | [p] => p
  | p :: ps => p ++ "/" ++ join_slash ps
  end.

(** [pathname.split('/').filter(Boolean)]: the empty string is falsy. *)
Definition path_segments (p : string) : list string :=
  filter (fun s => negb (String.eqb s "")) (split_slash p).

(** [a[i]] on an array: [undefined] at a negative or missing index. *)
Definition array_at (l : list string) (i : Z) : option string :=
  if (i <? 0)%Z then None else nth_error l (Z.to_nat i).

(** [a[i] = v] on an array: a negative index sets a property, not an
    element; an index past the end leaves holes, which [join] prints as
    empty strings. *)
Definition array_set (l : list string) (i : Z) (v : string) : list string :=
  if (i <? 0)%Z then l
  else let n := Z.to_nat i in
       if (n <? List.length l)%nat then firstn n l ++ v :: skipn (S n) l
       else l ++ repeat "" (n - List.length l) ++ [v].

(** [String(v)] for the argument of [searchParams.append]. *)
Definition param_string (v : option string) : string :=
  match v with
  | Some s => s
  | None => "undefined"
  end.

(** Lines 158-166. *)
Definition settings_url (pollUrl : url) : url :=
  let pathSegments := path_segments (pathname pollUrl) in
  let last_index := (Z.of_nat (List.length pathSegments) - 1)%Z in
  let originalLastSegment := array_at pathSegments last_index in
  let pathSegments := array_set pathSegments last_index "cloudprnt-setting.json" in
  {| pathname := "/" ++ join_slash pathSegments;
     searchParams := searchParams pollUrl ++
                     [("mac", PRINTER_MAC);
                      ("replaced_path", param_string originalLastSegment)] |}.

End SettingsUrl.

(** ** Entering MQTT mode ([runMqttMode], lines 344-369) and the top level *)

Module MqttConnect.
Import Settings Orchestrator.
Local Open Scope string_scope.
Local Open Scope list_scope.

Definition PRINTER_MAC : string := "00:00:00:00:00:00".

(** The options given to [mqtt.connect]; the credentials, taken from
    [authenticationSetting], are not part of the settings record. *)
Record connect_options : Type := {
  host : option string;
  port : Z;
  protocol : string;
  clientId : string;
  protocolVersion : Z;
  clean : bool;
  will_topic : string
}.

(** Lines 344-369: reading [mqttSettings] before connecting; on [undefined]
    the first property access throws. [portNumber || 1883] replaces the
    falsy port 0. *)
Definition mqtt_options (mqttSettings : option ConnSetting) : result connect_options :=
  match mqttSettings with
  | None => Err TypeError
  | Some ms =>
      Ok {| host := hostName ms;
            port := match portNumber ms with
                    | Some p => if (p =? 0)%Z then 1883%Z else p
                    | None => 1883%Z
                    end;
            protocol := match useTls ms with
                        | Some true => "mqtts"
                        | _ => "mqtt"
                        end;
            clientId := PRINTER_MAC;
            protocolVersion := 4%Z;
            clean := false;
            will_topic := "star/cloudprnt/to-server/" ++ PRINTER_MAC ++ "/client-will" |}
  end.

(** Lines 492-505 with the start of [runMqttMode]: a throw before the
    promise is built rejects it too, and the [catch] falls back to
    [runHttpPolling]; [undefined.useMQTT] throws to the outer [catch]. *)
Definition main_mode (serverSettings : result negotiation) : mode :=
  match serverSettings with
  | Ok (NegMqtt mqttSettings) =>
      match mqtt_options mqttSettings with
      | Ok _ => MqttMode Pending
      | Err _ => HttpMode
      end
  | Ok NegHttp => HttpMode
  | Ok NegUndefined => Exited
  | Err _ => Exited
  end.

End MqttConnect.

(** ** Dispatching MQTT messages ([client.on('message')], [handleMqttMessage]) *)

Module MqttSession.
Import Js Mqtt.
Local Open Scope string_scope.
Local Open Scope list_scope.

(** What [JSON.parse] gives: [null], an object (its [title] and its
    print-job fields), or another value, whose [title] is [undefined]. *)
Inductive payload : Type :=
| PNull
| PObject (title : option string) (job : PrintJob)
| PPrimitive.

(** Lines 423-431; the [Unsupported message type] error is modelled by
    [UnsupportedJobTypeError]. *)
Definition handleMqttMessage (env : mqtt_env) (rotate180 : bool) (p : payload)
    : M unit :=
  match p with
  | PNull => throw TypeError                 (* const { title } = null *)
  | PObject (Some title) job =>
      if String.eqb title "print-job" then handlePrintJob env rotate180 job
      else throw UnsupportedJobTypeError
  | PObject None _ => throw UnsupportedJobTypeError
  | PPrimitive => throw UnsupportedJobTypeError
  end.

(** Lines 394-402: [message] is the outcome of [JSON.parse]. *)
Definition on_message (env : mqtt_env) (rotate180 : bool) (message : result payload)
    : M unit :=
  try_catch (payload <- lift message ;; handleMqttMessage env rotate180 payload)
    (fun _ => ret tt).

End MqttSession.

(** ** Output file names ([writeFileSync] in every program) *)

Module FileName.
Local Open Scope string_scope.

(** [s.replace(/:/g, '.')] *)
Fixpoint replace_colons (s : string) : string :=
  match s with
  | EmptyString => EmptyString
  | String c rest =>
      String (if Ascii.eqb c ":"%char then "."%char else c) (replace_colons rest)
  end.

(** [`${prefix}${new Date().toISOString().replace(/:/g, '.')}${ext}`] *)
Definition output_file_name (prefix iso ext : string) : string :=
  prefix ++ replace_colons iso ++ ext.

Fixpoint has_colon (s : string) : bool :=
  match s with
  | EmptyString => false
  | String c rest => Ascii.eqb c ":"%char || has_colon rest
  end.

End FileName.

(** ** Test fixtures *)

Module Fixtures.
Import Js HttpPolling.
Local Open Scope string_scope.
Local Open Scope list_scope.

Definition poll_status (ready : bool) (media : option (list string))
    (actions : option (list (option string))) : PollStatus :=
  {| jobReady := ready; jobToken := Some "job-1"; mediaTypes := media;
     clientAction := actions |}.

(** Every call after the status POST succeeds. *)
Definition env_of (ps : PollStatus) : http_env :=
  {| on_post := Ok ps; on_post_action := Ok tt;
     on_get := fun _ => Ok []; on_delete := fun _ => Ok tt;
     png_encode := fun _ => Ok []; png_decode := fun _ => Err LibraryError;
     rotate := fun img => img; on_write := fun _ => Ok tt |}.

Definition st0 : St := {| trace := []; code := "" |}.

End Fixtures.

(** * Proofs *)

(** ** Decoder lemmas *)

Module StarPRNTFacts.
Import StarPRNT.
Local Open Scope Z_scope.

Lemma flat_quad_length data n :
  List.length (flat_map (quad data) (seq 0 n)) = (4 * n)%nat.
Proof.
  induction n as [|n IH]; [reflexivity|].
  rewrite seq_S, flat_map_app, length_app, IH. simpl. lia.
Qed.

Lemma set_nth_app pre rest j v :
  set_nth (pre ++ rest) (List.length pre + j) v = pre ++ set_nth rest j v.
Proof. induction pre as [|h t IH]; simpl; [reflexivity|now rewrite IH]. Qed.

Lemma set_four pre rest p :
  set_nth (set_nth (set_nth (set_nth (pre ++ 0 :: 0 :: 0 :: 0 :: rest)
     (List.length pre) p) (List.length pre + 1) p) (List.length pre + 2) p) (List.length pre + 3) 255
  = pre ++ [p; p; p; 255] ++ rest.
Proof.
  rewrite <- (Nat.add_0_r (List.length pre)) at 1.
  now rewrite !set_nth_app.
Qed.

Lemma fill_loop_step fuel data len st :
  (outPtr st < len)%nat ->
  fill_loop (S fuel) data len st =
  fill_loop fuel data len
    {| outPtr := outPtr st + 4; inPtr := S (inPtr st);
       pixelData := set_nth (set_nth (set_nth (set_nth (pixelData st)
          (outPtr st) (pixel_at data (inPtr st))) (outPtr st + 1)
          (pixel_at data (inPtr st))) (outPtr st + 2)
          (pixel_at data (inPtr st))) (outPtr st + 3) 255;
       reads := reads st ++ [inPtr st / 8];
       iterations := S (iterations st) |}%nat.
Proof. intros H. simpl. now rewrite (proj2 (Nat.ltb_lt _ _) H). Qed.

Lemma fill_loop_stop fuel data len st :
  (len <= outPtr st)%nat -> fill_loop fuel data len st = st.
Proof.
  intros H. destruct fuel; simpl; [reflexivity|].
  now rewrite (proj2 (Nat.ltb_ge _ _) H).
Qed.

Lemma fill_loop_run data n : forall fuel i r,
  (n - i <= fuel)%nat -> (i <= n)%nat ->
  fill_loop fuel data (4 * n)
    {| outPtr := 4 * i; inPtr := 72 + i;
       pixelData := flat_map (quad data) (seq 0 i) ++ repeat 0 (4 * (n - i));
       reads := r; iterations := i |}
  = {| outPtr := 4 * n; inPtr := 72 + n;
       pixelData := flat_map (quad data) (seq 0 n);
       reads := r ++ map (fun k => (72 + k) / 8)%nat (seq i (n - i));
       iterations := n |}%nat.
Proof.
  induction fuel as [|fuel IH]; intros i r Hf Hi.
  - assert (i = n) by lia. subst i.
    rewrite fill_loop_stop by (simpl; lia).
    rewrite Nat.sub_diag. cbn [seq repeat map]. now rewrite !app_nil_r.
  - destruct (Nat.lt_ge_cases i n) as [Hlt|Hge].
    2:{ assert (i = n) by lia. subst i.
        rewrite fill_loop_stop by (simpl; lia).
        rewrite Nat.sub_diag. cbn [seq repeat map]. now rewrite !app_nil_r. }
    rewrite fill_loop_step by (cbn [outPtr]; lia).
    cbn [outPtr inPtr pixelData reads iterations].
    replace (4 * (n - i))%nat with (S (S (S (S (4 * (n - S i))))))%nat by lia.
    cbn [repeat].
    pose proof (flat_quad_length data i) as Hl.
    rewrite <- Hl, set_four, Hl.
    replace (4 * i + 4)%nat with (4 * S i)%nat by lia.
    replace (S (72 + i)) with (72 + S i)%nat by lia.
    replace (flat_map (quad data) (seq 0 i) ++ [pixel_at data (72 + i);
               pixel_at data (72 + i); pixel_at data (72 + i); 255]
             ++ repeat 0 (4 * (n - S i)))
      with (flat_map (quad data) (seq 0 (S i)) ++ repeat 0 (4 * (n - S i))).
    2:{ rewrite seq_S, flat_map_app, <- app_assoc. reflexivity. }
    rewrite IH by lia.
    f_equal.
    rewrite <- app_assoc. f_equal.
    replace (n - i)%nat with (S (n - S i)) by lia. reflexivity.
Qed.

Lemma pixel_at_bit data p :
  pixel_at data p = if stream_bit data p then 0 else 255.
Proof.
  unfold pixel_at, stream_bit.
  set (x := to_int32 (byte_at data (p / 8)%nat)).
  set (n := Z.of_nat (7 - p mod 8)%nat).
  assert (Hn : 0 <= n) by apply Nat2Z.is_nonneg.
  change 1 with (Z.ones 1) at 1.
  rewrite Z.land_ones by lia. change (2 ^ 1) with 2.
  rewrite Zmod_odd, <- Z.bit0_odd, Z.shiftr_spec by lia.
  simpl (0 + n). now destruct (Z.testbit x n).
Qed.

Lemma quad_rgba data k :
  quad data k = rgba_of_bit (stream_bit data (72 + k)).
Proof.
  unfold quad, rgba_of_bit. rewrite pixel_at_bit.
  now destruct (stream_bit data (72 + k)).
Qed.

Lemma flat_quad_at data n k : (k < n)%nat ->
  firstn 4 (skipn (4 * k) (flat_map (quad data) (seq 0 n))) = quad data k.
Proof.
  intros Hk.
  replace n with (k + S (n - S k))%nat by lia.
  rewrite seq_app, flat_map_app, <- (flat_quad_length data k), skipn_app.
  rewrite skipn_all, Nat.sub_diag. simpl. reflexivity.
Qed.

Lemma decode_loop_eq data n :
  decode_loop data (4 * n) =
  {| outPtr := 4 * n; inPtr := 72 + n;
     pixelData := flat_map (quad data) (seq 0 n);
     reads := map (fun k => (72 + k) / 8)%nat (seq 0 n);
     iterations := n |}%nat.
Proof.
  unfold decode_loop.
  pose proof (fill_loop_run data n (4 * n) 0 [] ltac:(lia) ltac:(lia)) as H.
  rewrite Nat.sub_0_r in H. exact H.
Qed.

Lemma byte_Z_range b : 0 <= byte_Z b <= 255.
Proof.
  unfold byte_Z. pose proof (Byte.to_N_bounded b). lia.
Qed.

Lemma header_ok b4 b5 b6 b7 rest :
  header_mismatch (header b4 b5 b6 b7 ++ rest) = false.
Proof. reflexivity. Qed.

Lemma header_widthBytes_eq b4 b5 b6 b7 rest :
  header_widthBytes (header b4 b5 b6 b7 ++ rest) = byte_Z b4 + 256 * byte_Z b5.
Proof.
  unfold header_widthBytes, header, byte_at.
  cbn [app nth_error option_map to_int32]. rewrite Z.shiftl_mul_pow2 by lia.
  unfold byte_Z. lia.
Qed.

Lemma header_height_eq b4 b5 b6 b7 rest :
  header_height (header b4 b5 b6 b7 ++ rest) = byte_Z b6 + 256 * byte_Z b7.
Proof.
  unfold header_height, header, byte_at.
  cbn [app nth_error option_map to_int32]. rewrite Z.shiftl_mul_pow2 by lia.
  unfold byte_Z. lia.
Qed.

(** The decoder on a well-formed header, in closed form. *)
Lemma starprnt_image_eq b4 b5 b6 b7 rest :
  let data := header b4 b5 b6 b7 ++ rest in
  let width := 8 * (byte_Z b4 + 256 * byte_Z b5) in
  let height := byte_Z b6 + 256 * byte_Z b7 in
  let n := (Z.to_nat width * Z.to_nat height)%nat in
  starprnt_image data =
  Ok {| img_data := pixelData (decode_loop data (4 * n));
        img_width := width; img_height := height |} /\
  decode_loop data (4 * n) =
  {| outPtr := 4 * n; inPtr := 72 + n;
     pixelData := flat_map (quad data) (seq 0 n);
     reads := map (fun k => (72 + k) / 8)%nat (seq 0 n);
     iterations := n |}%nat.
Proof.
  intros data width height n.
  split; [|apply decode_loop_eq].
  unfold starprnt_image. subst data.
  rewrite header_ok, header_widthBytes_eq, header_height_eq.
  pose proof (byte_Z_range b4). pose proof (byte_Z_range b5).
  pose proof (byte_Z_range b6). pose proof (byte_Z_range b7).
  replace (Z.to_nat ((byte_Z b4 + 256 * byte_Z b5) * 8 *
                     (byte_Z b6 + 256 * byte_Z b7) * 4)) with (4 * n)%nat.
  { do 2 f_equal. subst width. lia. }
  subst n width height.
  rewrite <- Z2Nat.inj_mul by lia.
  replace 4%nat with (Z.to_nat 4) by reflexivity.
  rewrite <- Z2Nat.inj_mul by nia. f_equal. lia.
Qed.

End StarPRNTFacts.

(** ** Claims about the raster decoder *)

Module StarPRNTClaims.
Import StarPRNT StarPRNTFacts.
Local Open Scope Z_scope.

(** C1 (amended). For a buffer with the magic header bytes at offsets
    0,1,2,3,8, the decoder yields an image of width 8 times the little-endian
    16-bit value at offsets 4,5 and height the little-endian value at offsets
    6,7, with a pixel buffer of width*height*4 bytes; pixel (x, y) is bit
    72 + y*width + x of the byte stream (so it starts at byte 9), most
    significant bit first, bit 1 giving RGBA (0,0,0,255) and bit 0 giving
    (255,255,255,255), a byte past the end of the buffer reading as 0. In
    particular pixel (0,0) is black iff the most significant bit (bit 7) of
    byte 9 is 1. *)
Theorem starprnt_image_layout (b4 b5 b6 b7 : byte) (rest : list byte) :
  let data := header b4 b5 b6 b7 ++ rest in
  let width := 8 * (byte_Z b4 + 256 * byte_Z b5) in
  let height := byte_Z b6 + 256 * byte_Z b7 in
  exists img, starprnt_image data = Ok img /\
    img_width img = width /\ img_height img = height /\
    Z.of_nat (List.length (img_data img)) = width * height * 4 /\
    (forall x y : nat, Z.of_nat x < width -> Z.of_nat y < height ->
       pixel_rgba img x y =
       rgba_of_bit (stream_bit data (72 + y * Z.to_nat width + x))) /\
    (0 < width -> 0 < height ->
       pixel_rgba img 0 0 = rgba_of_bit (Z.testbit (to_int32 (byte_at data 9)) 7)).
Proof.
  intros data width height.
  destruct (starprnt_image_eq b4 b5 b6 b7 rest) as [Himg Hloop].
  fold data width height in Himg, Hloop.
  set (n := (Z.to_nat width * Z.to_nat height)%nat) in *.
  pose proof (byte_Z_range b4). pose proof (byte_Z_range b5).
  pose proof (byte_Z_range b6). pose proof (byte_Z_range b7).
  assert (Hw : 0 <= width) by (subst width; lia).
  assert (Hh : 0 <= height) by (subst height; lia).
  assert (Hpix : forall x y : nat, Z.of_nat x < width -> Z.of_nat y < height ->
    pixel_rgba {| img_data := pixelData (decode_loop data (4 * n));
                  img_width := width; img_height := height |} x y =
    rgba_of_bit (stream_bit data (72 + y * Z.to_nat width + x))).
  { intros x y Hx Hy. unfold pixel_rgba. cbn [img_data img_width].
    rewrite Hloop. cbn [pixelData].
    rewrite flat_quad_at by (subst n; nia).
    apply quad_rgba. }
  eexists. split; [exact Himg|].
  cbn [img_width img_height img_data].
  split; [reflexivity|]. split; [reflexivity|]. split.
  - rewrite Hloop. cbn [pixelData]. rewrite flat_quad_length.
    subst n. rewrite Nat2Z.inj_mul, Nat2Z.inj_mul, !Z2Nat.id by lia. lia.
  - split; [exact Hpix|].
    intros Hw0 Hh0. rewrite Hpix by lia. reflexivity.
Qed.

(** C1 (counterexample). Byte 9 = 0x01 has bit 0 set, yet pixel (0,0) of the
    1-byte-wide image is white: pixel (0,0) is the most significant bit. *)
Lemma starprnt_pixel00_is_msb :
  let data := header x01 x00 x01 x00 ++ [x01] in
  exists img, starprnt_image data = Ok img /\
    Z.testbit (to_int32 (byte_at data 9)) 0 = true /\
    pixel_rgba img 0 0 = [255; 255; 255; 255].
Proof.
  eexists. split; [reflexivity|]. split; vm_compute; reflexivity.
Qed.

(** C2 (amended). On a well-formed header the decoding loop runs exactly
    width*height iterations, reading byte (72 + k) / 8 at iteration k; it does
    not compare these indices with the buffer length and never fails: a
    header implying pixel data past the end of the buffer still decodes, the
    missing bytes reading as 0, so their pixels are white. *)
Theorem starprnt_scan_unchecked (b4 b5 b6 b7 : byte) (rest : list byte) :
  let data := header b4 b5 b6 b7 ++ rest in
  let width := 8 * (byte_Z b4 + 256 * byte_Z b5) in
  let height := byte_Z b6 + 256 * byte_Z b7 in
  let n := (Z.to_nat width * Z.to_nat height)%nat in
  let st := decode_loop data (4 * n) in
  (exists img, starprnt_image data = Ok img /\ img_data img = pixelData st) /\
  iterations st = n /\
  reads st = map (fun k => (72 + k) / 8)%nat (seq 0 n) /\
  (forall p : nat, (List.length data <= p / 8)%nat -> pixel_at data p = 255).
Proof.
  intros data width height n st.
  destruct (starprnt_image_eq b4 b5 b6 b7 rest) as [Himg Hloop].
  fold data width height n in Himg, Hloop. fold st in Himg, Hloop.
  split; [eexists; split; [exact Himg|reflexivity]|].
  rewrite Hloop. cbn [iterations reads].
  split; [reflexivity|]. split; [reflexivity|].
  intros p Hp. unfold pixel_at, byte_at.
  rewrite (proj2 (nth_error_None data (p / 8)) Hp).
  cbn [option_map to_int32]. now rewrite Z.shiftr_0_l.
Qed.

(** C2 (counterexample). A header declaring one row of one byte with no
    pixel byte after it: the decoder succeeds, and its loop reads byte 9 of
    a 9-byte buffer. *)
Lemma starprnt_reads_past_end :
  let data := header x01 x00 x01 x00 in
  (exists img, starprnt_image data = Ok img) /\
  List.length data = 9%nat /\ In 9%nat (reads (decode_loop data 32)).
Proof.
  split; [eexists; reflexivity|]. split; [reflexivity|].
  vm_compute. auto.
Qed.

(** The byte offsets and values of the magic header. *)
Definition magic : list (nat * Z) := [(0%nat, 27); (1%nat, 29); (2%nat, 83); (3%nat, 1); (8%nat, 0)].

Lemma js_neq_true v c : v <> Some c -> js_neq v c = true.
Proof.
  destruct v as [z|]; simpl; [|reflexivity].
  intros H. apply negb_true_iff, Z.eqb_neq. congruence.
Qed.

(** C3. If any byte at offsets 0,1,2,3,8 differs from the magic pattern
    (a missing byte differs from every value), the decoder fails with
    [MalformedRasterError] and yields no image, whatever the other bytes. *)
Theorem starprnt_rejects_bad_magic (data : list byte) :
  (exists i c, In (i, c) magic /\ byte_at data i <> Some c) ->
  starprnt_image data = Err MalformedRasterError.
Proof.
  intros (i & c & Hin & Hne).
  unfold starprnt_image, header_mismatch.
  simpl in Hin.
  destruct Hin as [E|[E|[E|[E|[E|[]]]]]]; injection E as <- <-;
    rewrite (js_neq_true _ _ Hne); rewrite ?orb_true_r; reflexivity.
Qed.

Lemma starprnt_rejects_bad_magic_witness :
  (exists i c, In (i, c) magic /\ byte_at [x1b; x1d; x53; x02] i <> Some c) /\
  starprnt_image [x1b; x1d; x53; x02] = Err MalformedRasterError.
Proof.
  assert (H : exists i c, In (i, c) magic /\ byte_at [x1b; x1d; x53; x02] i <> Some c).
  { exists 3%nat, 1. split; [simpl; auto|]. vm_compute. congruence. }
  split; [exact H|]. exact (starprnt_rejects_bad_magic _ H).
Defined.

End StarPRNTClaims.

(** ** The async-function monad *)

Module JsFacts.
Import Js.
Local Open Scope string_scope.
Local Open Scope list_scope.

Definition no_delete (ev : list event) : Prop :=
  forall c t, ~ In (EvDelete c t) ev.

Definition valid_code (c : string) : Prop :=
  c = "200" \/ c = "500" \/ c = "510".

(** [m] issues no DELETE and keeps the ack code among 200, 500, 510. *)
Definition quiet {A} (m : M A) : Prop :=
  forall s, valid_code (code s) ->
  exists ev, trace (snd (m s)) = trace s ++ ev /\ no_delete ev /\
             valid_code (code (snd (m s))).

Lemma no_delete_nil : no_delete [].
Proof. intros c t []. Qed.

Lemma no_delete_app l1 l2 : no_delete l1 -> no_delete l2 -> no_delete (l1 ++ l2).
Proof. intros H1 H2 c t Hin. apply in_app_or in Hin as [H|H]; eauto. exact (H1 _ _ H). exact (H2 _ _ H). Qed.

Lemma quiet_ret {A} (a : A) : quiet (ret a).
Proof. intros s Hs. exists []. rewrite app_nil_r. split; [reflexivity|]. split; [apply no_delete_nil|exact Hs]. Qed.

Lemma quiet_throw {A} e : quiet (A := A) (throw e).
Proof. intros s Hs. exists []. rewrite app_nil_r. split; [reflexivity|]. split; [apply no_delete_nil|exact Hs]. Qed.

Lemma quiet_lift {A} (r : result A) : quiet (lift r).
Proof. intros s Hs. exists []. rewrite app_nil_r. split; [reflexivity|]. split; [apply no_delete_nil|exact Hs]. Qed.

Lemma quiet_get_code : quiet get_code.
Proof. intros s Hs. exists []. rewrite app_nil_r. split; [reflexivity|]. split; [apply no_delete_nil|exact Hs]. Qed.

Lemma quiet_emit e : (forall c t, e <> EvDelete c t) -> quiet (emit e).
Proof.
  intros He s Hs. exists [e]. split; [reflexivity|]. split; [|exact Hs].
  intros c t [H|[]]. exact (He c t H).
Qed.

Lemma quiet_set_code c : valid_code c -> quiet (set_code c).
Proof. intros Hc s _. exists []. simpl. rewrite app_nil_r. split; [reflexivity|]. split; [apply no_delete_nil|exact Hc]. Qed.

Lemma quiet_deref {A} (o : option A) : quiet (deref o).
Proof. destruct o; [apply quiet_ret|apply quiet_throw]. Qed.

Lemma quiet_bind {A B} (m : M A) (k : A -> M B) :
  quiet m -> (forall a, quiet (k a)) -> quiet (bind m k).
Proof.
  intros Hm Hk s Hs. unfold bind.
  destruct (Hm s Hs) as (ev1 & E1 & N1 & V1).
  destruct (m s) as [[a|e] s1]; simpl in *.
  - destruct (Hk a s1 V1) as (ev2 & E2 & N2 & V2).
    exists (ev1 ++ ev2). rewrite E2, E1, app_assoc.
    split; [reflexivity|]. split; [apply no_delete_app; assumption|exact V2].
  - exists ev1. auto.
Qed.

Ltac quiet_step :=
  match goal with
  | |- quiet (bind _ _) => apply quiet_bind; [|intro]
  | |- quiet (ret _) => apply quiet_ret
  | |- quiet (throw _) => apply quiet_throw
  | |- quiet (lift _) => apply quiet_lift
  | |- quiet get_code => apply quiet_get_code
  | |- quiet (emit _) => apply quiet_emit; intros ? ? ?; discriminate
  | |- quiet (set_code _) => apply quiet_set_code; unfold valid_code; auto
  | |- quiet (deref _) => apply quiet_deref
  | |- quiet (if ?b then _ else _) => destruct b
  | |- quiet (match ?x with _ => _ end) => destruct x
  end.

End JsFacts.

(** ** Claims about the HTTP polling transports *)

Module HttpClaims.
Import Js HttpPolling JsFacts Fixtures.
Local Open Scope string_scope.
Local Open Scope list_scope.

Lemma service_body_quiet env rotate180 status :
  quiet (service_body env rotate180 status).
Proof.
  unfold service_body, get, write.
  repeat quiet_step.
Qed.

(** C4. In [runHttpPolling], an iteration whose status POST answers
    [jobReady: true] issues, after that POST, exactly one DELETE: it carries
    the final value of [code] (200, 500 or 510) and the job token, it is the
    last request of the iteration (only a sleep may follow), and the
    iteration ends normally, back to polling, whatever the fetch, decoding,
    writing or the DELETE itself did. *)
Theorem http_job_acked_once (env : http_env) (delay : Z) (rotate180 : bool)
    (ps : PollStatus) (s0 : St) :
  on_post env = Ok ps -> jobReady ps = true ->
  let (r, s) := http_iteration env delay rotate180 s0 in
  r = Ok tt /\
  exists pre post,
    trace s = trace s0 ++ EvPost None :: pre ++
              EvDelete (code s) (jobToken ps) :: post /\
    no_delete pre /\ (post = [] \/ post = [EvSleep delay]) /\
    valid_code (code s).
Proof.
  intros Hpost Hready.
  unfold http_iteration, try_catch, post.
  unfold bind at 1. unfold bind at 1. unfold emit at 1. unfold lift at 1.
  rewrite Hpost, Hready. cbn -[service_body try_finally delete_].
  set (s2 := {| trace := trace s0 ++ [EvPost None]; code := "500" |}).
  assert (V2 : valid_code (code s2)) by (right; left; reflexivity).
  destruct (service_body_quiet env rotate180 ps s2 V2) as (ev & E & N & V).
  unfold try_finally.
  destruct (service_body env rotate180 ps s2) as [r1 s3] eqn:Hb.
  simpl in E, V.
  unfold delete_, bind, get_code, emit, lift. cbn [code trace].
  set (s4 := {| trace := trace s3 ++ [EvDelete (code s3) (jobToken ps)];
                code := code s3 |}).
  assert (T4 : trace s4 = trace s0 ++ EvPost None :: ev ++
                          EvDelete (code s3) (jobToken ps) :: []).
  { subst s4. cbn [trace]. rewrite E. subst s2. cbn [trace].
    rewrite <- !app_assoc. reflexivity. }
  assert (C4 : code s4 = code s3) by reflexivity.
  clearbody s4.
  unfold sleep, emit.
  destruct (on_delete env (code s3)) as [[]|e]; [destruct r1 as [[]|e1]|];
    cbv beta iota; (split; [reflexivity|]); cbn [trace code]; rewrite C4.
  - exists ev, []. split; [exact T4|]. auto.
  - exists ev, [EvSleep delay].
    split; [rewrite T4, <- !app_assoc; cbn [app]; rewrite <- !app_assoc; reflexivity|]. auto.
  - exists ev, [EvSleep delay].
    split; [rewrite T4, <- !app_assoc; cbn [app]; rewrite <- !app_assoc; reflexivity|]. auto.
Qed.

Lemma http_job_acked_once_witness :
  on_post (env_of (poll_status true (Some [png_type]) None)) =
    Ok (poll_status true (Some [png_type]) None) /\
  jobReady (poll_status true (Some [png_type]) None) = true /\
  let (r, s) := http_iteration (env_of (poll_status true (Some [png_type]) None))
                  5000 false st0 in
  r = Ok tt /\
  exists pre post,
    trace s = trace st0 ++ EvPost None :: pre ++
              EvDelete (code s) (jobToken (poll_status true (Some [png_type]) None))
              :: post /\
    no_delete pre /\ (post = [] \/ post = [EvSleep 5000]) /\ valid_code (code s).
Proof.
  split; [reflexivity|]. split; [reflexivity|].
  exact (http_job_acked_once (env_of (poll_status true (Some [png_type]) None))
           5000 false (poll_status true (Some [png_type]) None) st0 eq_refl eq_refl).
Defined.

Lemma includes_false l x : ~ In x l -> includes l x = false.
Proof.
  intros Hn. unfold includes.
  destruct (existsb (String.eqb x) l) eqn:H; [|reflexivity].
  apply existsb_exists in H as (y & Hy & Heq).
  apply String.eqb_eq in Heq. subst y. contradiction.
Qed.

Ltac run_iteration :=
  unfold http_iteration, try_catch, try_finally, service_body, post,
    delete_, sleep, bind, emit, lift, set_code, get_code, throw, deref, ret.

(** C8. An iteration whose status POST answers [jobReady: true] with a
    [mediaTypes] list holding neither supported type issues, after the POST,
    exactly one DELETE with code 510 and then sleeps: no GET is issued. *)
Theorem http_unsupported_media_510 (env : http_env) (delay : Z)
    (rotate180 : bool) (ps : PollStatus) (mt : list string) (s0 : St) :
  on_post env = Ok ps -> jobReady ps = true -> mediaTypes ps = Some mt ->
  ~ In starprnt_type mt -> ~ In png_type mt ->
  trace (snd (http_iteration env delay rotate180 s0)) =
  trace s0 ++ [EvPost None; EvDelete "510" (jobToken ps); EvSleep delay].
Proof.
  intros Hpost Hready Hmt H1 H2.
  run_iteration. rewrite Hpost. cbn -[includes]. rewrite Hready. cbn -[includes].
  rewrite Hmt, (includes_false _ _ H1), (includes_false _ _ H2). cbn.
  destruct (on_delete env "510"); cbn; rewrite <- !app_assoc; reflexivity.
Qed.

Lemma http_unsupported_media_510_witness :
  let ps := poll_status true (Some ["application/pdf"]) None in
  (on_post (env_of ps) = Ok ps /\ jobReady ps = true /\
   mediaTypes ps = Some ["application/pdf"] /\
   ~ In starprnt_type ["application/pdf"] /\ ~ In png_type ["application/pdf"]) /\
  trace (snd (http_iteration (env_of ps) 5000 false st0)) =
  trace st0 ++ [EvPost None; EvDelete "510" (jobToken ps); EvSleep 5000].
Proof.
  intros ps.
  assert (N1 : ~ In starprnt_type ["application/pdf"])
    by (intros [H|[]]; discriminate H).
  assert (N2 : ~ In png_type ["application/pdf"])
    by (intros [H|[]]; discriminate H).
  split; [repeat split; assumption|].
  exact (http_unsupported_media_510 (env_of ps) 5000 false ps _ st0
           eq_refl eq_refl eq_refl N1 N2).
Defined.

(** C10. In the combined transport, an iteration whose status POST answers
    [jobReady: true] without [mediaTypes] throws at
    [status.mediaTypes.includes], keeps code 500, acknowledges with one
    DELETE carrying 500 and sleeps: no GET is issued. *)
Theorem http_missing_media_types_500 (env : http_env) (delay : Z)
    (rotate180 : bool) (ps : PollStatus) (s0 : St) :
  on_post env = Ok ps -> jobReady ps = true -> mediaTypes ps = None ->
  trace (snd (http_iteration env delay rotate180 s0)) =
  trace s0 ++ [EvPost None; EvDelete "500" (jobToken ps); EvSleep delay].
Proof.
  intros Hpost Hready Hmt.
  run_iteration. rewrite Hpost. cbn -[includes]. rewrite Hready. cbn -[includes].
  rewrite Hmt. cbn.
  destruct (on_delete env "500"); cbn; rewrite <- !app_assoc; reflexivity.
Qed.

Lemma http_missing_media_types_500_witness :
  let ps := poll_status true None None in
  (on_post (env_of ps) = Ok ps /\ jobReady ps = true /\ mediaTypes ps = None) /\
  trace (snd (http_iteration (env_of ps) 5000 false st0)) =
  trace st0 ++ [EvPost None; EvDelete "500" (jobToken ps); EvSleep 5000].
Proof.
  intros ps. split; [repeat split|].
  exact (http_missing_media_types_500 (env_of ps) 5000 false ps st0
           eq_refl eq_refl eq_refl).
Defined.

Lemma answer_spec delay r :
  Standalone.spec_answer delay r =
  match Standalone.answer delay r with Some a => [a] | None => [] end.
Proof.
  destruct r as [r|]; [|reflexivity].
  unfold Standalone.spec_answer, Standalone.answer, Standalone.canned. cbn [find fst].
  rewrite (String.eqb_sym "GetPollInterval"), (String.eqb_sym "Encodings"),
    (String.eqb_sym "ClientType"), (String.eqb_sym "ClientVersion").
  destruct (r =? "GetPollInterval")%string; [reflexivity|].
  destruct (r =? "Encodings")%string; [reflexivity|].
  destruct (r =? "ClientType")%string; [reflexivity|].
  destruct (r =? "ClientVersion")%string; reflexivity.
Qed.

Lemma client_action_fold delay l acc :
  fold_left (fun acc r => match Standalone.answer delay r with
                          | Some a => acc ++ [a]
                          | None => acc
                          end) l acc =
  acc ++ List.concat (map (Standalone.spec_answer delay) l).
Proof.
  revert acc.
  induction l as [|r l IH]; intros acc; simpl; [now rewrite app_nil_r|].
  rewrite IH, answer_spec.
  destruct (Standalone.answer delay r); simpl; rewrite <- ?app_assoc; reflexivity.
Qed.

Lemma client_action_answers_concat delay l :
  Standalone.client_action_answers delay l =
  List.concat (map (Standalone.spec_answer delay) l).
Proof. apply client_action_fold. Qed.

(** C9 (amended). Only the standalone text/plain emulator ([index.js])
    answers [clientAction]: on [jobReady: false] with a non-empty
    [clientAction] list it sends exactly one follow-up POST, then sleeps; the
    POST's [clientAction] list holds, in request order, the canned answer of
    each recognized request (GetPollInterval: the interval in ms; Encodings:
    "text/plain"; ClientType: "Star Printer Emulator"; ClientVersion: "HIX"),
    other requests skipped. The combined emulator's [runHttpPolling] ignores
    [clientAction]: on [jobReady: false] it only sleeps. *)
Theorem client_action_only_standalone (env : http_env) (delay : Z)
    (rotate180 : bool) (ps : PollStatus) (s0 : St) :
  on_post env = Ok ps -> jobReady ps = false ->
  trace (snd (http_iteration env delay rotate180 s0)) =
    trace s0 ++ [EvPost None; EvSleep delay] /\
  (forall l, clientAction ps = Some l -> l <> [] ->
   trace (snd (Standalone.iteration env delay s0)) =
   trace s0 ++ [EvPost None; EvPost (Some (List.concat (map (Standalone.spec_answer delay) l)));
                EvSleep delay]).
Proof.
  intros Hpost Hready. split.
  - run_iteration. rewrite Hpost. cbn -[includes]. rewrite Hready. cbn.
    rewrite <- app_assoc. reflexivity.
  - intros l Hl Hne.
    unfold Standalone.iteration, Standalone.post_actions.
    run_iteration. rewrite Hpost. cbn -[includes Standalone.client_action_answers].
    rewrite Hready, Hl. cbn -[includes Standalone.client_action_answers].
    destruct l as [|r l]; [contradiction|].
    cbn -[includes Standalone.client_action_answers].
    rewrite client_action_answers_concat.
    destruct (on_post_action env); cbn; rewrite <- !app_assoc; reflexivity.
Qed.

Lemma client_action_only_standalone_witness :
  let ps := poll_status false None (Some [Some "Encodings"; Some "Foo";
                                          Some "GetPollInterval"]) in
  (on_post (env_of ps) = Ok ps /\ jobReady ps = false) /\
  (trace (snd (http_iteration (env_of ps) 5000 false st0)) =
     trace st0 ++ [EvPost None; EvSleep 5000] /\
   (forall l, clientAction ps = Some l -> l <> [] ->
    trace (snd (Standalone.iteration (env_of ps) 5000 st0)) =
    trace st0 ++ [EvPost None; EvPost (Some (List.concat (map (Standalone.spec_answer 5000) l)));
                  EvSleep 5000])).
Proof.
  intros ps. split; [split; reflexivity|].
  exact (client_action_only_standalone (env_of ps) 5000 false ps st0
           eq_refl eq_refl).
Defined.

(** C9 (counterexample). The combined transport, answered [jobReady: false]
    with a GetPollInterval request, sends no follow-up POST. *)
Lemma combined_ignores_client_action :
  let ps := poll_status false None (Some [Some "GetPollInterval"]) in
  trace (snd (http_iteration (env_of ps) 5000 false st0)) =
  [EvPost None; EvSleep 5000].
Proof. reflexivity. Qed.

End HttpClaims.

(** ** Claims about the MQTT print-job handler *)

Module MqttClaims.
Import Js Mqtt JsFacts.
Local Open Scope string_scope.
Local Open Scope list_scope.

Definition no_publish (ev : list event) : Prop :=
  forall m, ~ In (EvPublish m) ev.

(** The payload was decoded and the PNG written. *)
Definition decoded_and_written (env : mqtt_env) (rotate180 : bool)
    (job : PrintJob) : Prop :=
  exists raw png, pj_printData job = Some raw /\
    StarPRNT.convertStarprntToPng (png_encode env) (rotate env) raw rotate180 = Ok png /\
    on_write env png = Ok tt.

Lemma print_job_body_facts env rotate180 job s :
  code s = "500" ->
  let s1 := snd (print_job_body env rotate180 job s) in
  (exists pre, trace s1 = trace s ++ EvPublish (ClientStatus true) :: pre /\
               no_publish pre) /\
  valid_code (code s1) /\
  (not_raw (pj_jobType job) = true -> code s1 = "500") /\
  (code s1 = "510" <->
   not_raw (pj_jobType job) = false /\ on_publish env (ClientStatus true) = Ok tt /\
   bad_media (pj_mediaTypes job) = true) /\
  (code s1 = "200" <->
   on_publish env (ClientStatus true) = Ok tt /\ not_raw (pj_jobType job) = false /\
   bad_media (pj_mediaTypes job) = false /\ decoded_and_written env rotate180 job).
Proof.
  intros Hc.
  unfold print_job_body, publish, bind, emit, lift, set_code, throw, deref, ret.
  destruct (on_publish env (ClientStatus true)) as [[]|e1] eqn:H1;
  [destruct (not_raw (pj_jobType job)) eqn:H2;
   [|destruct (bad_media (pj_mediaTypes job)) eqn:H3;
     [|destruct (pj_printData job) as [raw|] eqn:H4;
       [destruct (StarPRNT.convertStarprntToPng (png_encode env) (rotate env)
                    raw rotate180) as [png|e5] eqn:H5;
        [destruct (on_write env png) as [[]|e6] eqn:H6|]|]]]|];
  unfold throw; cbv beta iota zeta; cbn [snd trace code]; rewrite ?Hc.
  all: split;
    [ first [ exists []; rewrite ?app_nil_r; split; [reflexivity|intros m []]
            | exists [EvWrite]; rewrite <- app_assoc;
              split; [reflexivity|intros m [H|[]]; discriminate H] ] |].
  all: split; [unfold valid_code; auto|].
  all: split; [intros; first [reflexivity|discriminate]|].
  all: split;
    [ split;
      [ intros Hcode; first [ discriminate Hcode | auto ]
      | intros (Ha & Hb & Hd); first [ reflexivity | congruence ] ] |].
  all: split;
    [ intros Hcode;
      first [ discriminate Hcode
            | repeat split; exists raw, png; auto ]
    | intros (Ha & Hb & Hd & raw' & png' & E4 & E5 & E6);
      first [ reflexivity | congruence ] ].
Qed.

Lemma prefix_200 c : valid_code c -> (String.prefix "200" c = true <-> c = "200").
Proof.
  intros [->|[->| ->]]; split; intros H; first [reflexivity | discriminate H].
Qed.

(** C5 (amended). For every print-job message, [handlePrintJob] publishes
    "printing in progress", then, as the last publication but at most one,
    exactly one print-result carrying the job token, the final code and a
    success flag true iff that code is 200. The code is 500 when jobType is
    not "raw"; 510 when jobType is "raw", the in-progress publication
    succeeded and mediaTypes is not exactly [application/vnd.star.starprnt];
    200 iff all of that passed and the payload was decoded and written; it
    is always one of 200, 500, 510, and any other failure (the in-progress
    publication failing, printData missing, decoding or writing failing)
    leaves it at 500. When the print-result publication succeeds, exactly
    one "not printing" status follows it. *)
Theorem print_job_reported (env : mqtt_env) (rotate180 : bool) (job : PrintJob)
    (s0 : St) :
  let s := snd (handlePrintJob env rotate180 job s0) in
  let c := code s in
  let result := PrintResult (pj_jobToken job) (String.prefix "200" c) c in
  exists pre post,
    trace s = trace s0 ++ EvPublish (ClientStatus true) :: pre ++
              EvPublish result :: post /\
    no_publish pre /\
    (String.prefix "200" c = true <-> c = "200") /\
    (not_raw (pj_jobType job) = true -> c = "500") /\
    (c = "510" <->
     not_raw (pj_jobType job) = false /\ on_publish env (ClientStatus true) = Ok tt /\
     bad_media (pj_mediaTypes job) = true) /\
    (c = "200" <->
     on_publish env (ClientStatus true) = Ok tt /\ not_raw (pj_jobType job) = false /\
     bad_media (pj_mediaTypes job) = false /\ decoded_and_written env rotate180 job) /\
    (c = "200" \/ c = "500" \/ c = "510") /\
    (~ (not_raw (pj_jobType job) = false /\ on_publish env (ClientStatus true) = Ok tt /\
        bad_media (pj_mediaTypes job) = true) ->
     ~ (on_publish env (ClientStatus true) = Ok tt /\ not_raw (pj_jobType job) = false /\
        bad_media (pj_mediaTypes job) = false /\ decoded_and_written env rotate180 job) ->
     c = "500") /\
    (on_publish env result = Ok tt -> post = [EvPublish (ClientStatus false)]) /\
    (post = [] \/ post = [EvPublish (ClientStatus false)]).
Proof.
  cbv zeta.
  set (s2 := {| trace := trace s0; code := "500" |}).
  pose proof (print_job_body_facts env rotate180 job s2 eq_refl) as F.
  cbv zeta in F.
  replace (handlePrintJob env rotate180 job s0)
    with (try_finally (print_job_body env rotate180 job)
            (statusCode <- get_code ;;
             publish env (PrintResult (pj_jobToken job)
                            (String.prefix "200" statusCode) statusCode) ;;
             publish env (ClientStatus false)) s2) by reflexivity.
  assert (T2 : trace s2 = trace s0) by reflexivity.
  clearbody s2.
  unfold try_finally.
  destruct (print_job_body env rotate180 job s2) as [r1 s1] eqn:Hb.
  cbn [snd] in F.
  destruct F as ((pre & Tpre & Npre) & V & F500 & F510 & F200).
  unfold get_code, publish, bind, emit, lift. cbn [code trace].
  remember (PrintResult (pj_jobToken job) (String.prefix "200" (code s1)) (code s1))
    as m1 eqn:Em1.
  destruct (on_publish env m1) as [[]|e] eqn:P1;
    [destruct (on_publish env (ClientStatus false)) as [[]|e'] eqn:P2|];
    destruct r1 as [[]|e1]; cbn [snd code trace];
    rewrite <- Em1;
    (exists pre; eexists;
     split; [rewrite Tpre, T2, <- !app_assoc; reflexivity|]);
    (split; [exact Npre|]); (split; [apply prefix_200, V|]);
    (split; [exact F500|]); (split; [exact F510|]); (split; [exact F200|]);
    (split; [exact V|]);
    (split; [intros N510 N200;
             destruct V as [H|[H|H]];
             [exfalso; apply N200, F200, H | exact H | exfalso; apply N510, F510, H]|]);
    (split; [intros Hok; first [reflexivity|congruence]|auto]).
Qed.

(** C5 (counterexample). A raw job with mediaTypes ["application/pdf"]:
    when publishing the in-progress status fails, the media check is never
    reached and the print-result carries code 500, not 510. And the
    "not printing" status is not published regardless of outcome: when the
    print-result publication fails, the [finally] block stops there and no
    follow-up status is sent. *)
Lemma print_job_publish_failure_500 :
  let env := {| on_publish := fun m => match m with
                                       | ClientStatus true => Err LibraryError
                                       | _ => Ok tt
                                       end;
                png_encode := fun _ => Ok []; rotate := fun img => img;
                on_write := fun _ => Ok tt |} in
  let env' := {| on_publish := fun m => match m with
                                        | PrintResult _ _ _ => Err LibraryError
                                        | _ => Ok tt
                                        end;
                 png_encode := fun _ => Ok []; rotate := fun img => img;
                 on_write := fun _ => Ok tt |} in
  let job := {| pj_jobToken := Some "job-1"; pj_jobType := Some "raw";
                pj_mediaTypes := Some ["application/pdf"];
                pj_printData := Some [] |} in
  bad_media (pj_mediaTypes job) = true /\
  trace (snd (handlePrintJob env false job Fixtures.st0)) =
  [EvPublish (ClientStatus true);
   EvPublish (PrintResult (Some "job-1") false "500");
   EvPublish (ClientStatus false)] /\
  trace (snd (handlePrintJob env' false job Fixtures.st0)) =
  [EvPublish (ClientStatus true);
   EvPublish (PrintResult (Some "job-1") false "510")].
Proof. split; [|split]; reflexivity. Qed.

End MqttClaims.

(** ** Claims about negotiation and orchestration *)

Module SessionClaims.
Import Js Settings Orchestrator.
Local Open Scope string_scope.
Local Open Scope list_scope.

Definition trigger_post_response : Response :=
  {| status := 200;
     json := Ok {| serverSupportProtocol := Some ["MQTT"];
                   settingForMQTT := Some {| useTriggerPOST := Some true;
                                             mqttConnectionSetting := None |} |} |}.

Definition not_found_response : Response :=
  {| status := 404; json := Err JsonError |}.

(** C6 (code bug). The unsupported-mode error thrown by
    [parseServerSettings] is caught by the retry [catch] meant for timeouts
    and network errors: a server answering Trigger POST is asked three times,
    5 s apart, before the error surfaces; and if it answers 404 on the second
    attempt, negotiation resolves with [{ useMQTT: false }] (HTTP polling). *)
Theorem trigger_post_retried_then_downgraded :
  parseServerSettings match json trigger_post_response with
                      | Ok j => j
                      | Err _ => {| serverSupportProtocol := None;
                                    settingForMQTT := None |}
                      end = Err UnsupportedModeError /\
  getServerSettings (fun _ => Ok trigger_post_response) Fixtures.st0 =
    (Err UnsupportedModeError,
     {| trace := [EvSettingsGet; EvSleep 5000; EvSettingsGet; EvSleep 5000;
                  EvSettingsGet];
        code := "" |}) /\
  fst (getServerSettings (fun attempt => if (attempt =? 1)%nat
                                         then Ok trigger_post_response
                                         else Ok not_found_response)
         Fixtures.st0) = Ok NegHttp /\
  start (fst (getServerSettings (fun attempt => if (attempt =? 1)%nat
                                                then Ok trigger_post_response
                                                else Ok not_found_response)
                Fixtures.st0)) = HttpMode.
Proof. repeat split; reflexivity. Qed.

Definition rejecting (ev : client_event) : Prop :=
  ev = CEError \/ ev = CESubscribed true.

Lemma orch_run_http evs : orch_run HttpMode evs = HttpMode.
Proof. induction evs as [|ev evs IH]; [reflexivity|exact IH]. Qed.

Lemma orch_run_mqtt evs :
  orch_run (MqttMode Pending) evs = HttpMode <-> exists ev, In ev evs /\ rejecting ev.
Proof.
  induction evs as [|ev evs IH].
  - split; [discriminate|intros (ev & [] & _)].
  - unfold orch_run. cbn [fold_left].
    destruct ev as [| [|] | | |]; cbn [orch_step mqtt_handler reject];
      fold (orch_run HttpMode evs); fold (orch_run (MqttMode Pending) evs);
      rewrite ?orch_run_http.
    all: first
      [ split; [intros _; eexists; split; [left; reflexivity|unfold rejecting; auto]|reflexivity]
      | rewrite IH; split;
        [ intros (e & Hin & Hr); exists e; split; [right; exact Hin|exact Hr]
        | intros (e & [<-|Hin] & Hr);
          [ destruct Hr as [Hr|Hr]; discriminate Hr
          | exists e; split; [exact Hin|exact Hr] ] ] ].
Qed.

(** Every iteration of [runHttpPolling] ends normally: its outer [catch]
    absorbs every exception, so the [while (true)] loop never exits. *)
Lemma http_iteration_total env delay rotate180 s :
  fst (HttpPolling.http_iteration env delay rotate180 s) = Ok tt.
Proof.
  unfold HttpPolling.http_iteration, try_catch.
  match goal with |- context [match ?x with _ => _ end] =>
    destruct x as [[[]|e] s1] end; reflexivity.
Qed.

(** Starting from MQTT mode, the Orchestrator is only ever in MQTT mode
    or in HTTP polling. *)
Lemma orch_run_stays evs : forall m,
  m = MqttMode Pending \/ m = HttpMode ->
  orch_run m evs = MqttMode Pending \/ orch_run m evs = HttpMode.
Proof.
  induction evs as [|ev evs IH]; intros m Hm; [exact Hm|].
  unfold orch_run. cbn [fold_left]. apply IH.
  destruct Hm as [->| ->]; [|right; reflexivity].
  destruct ev as [| [|] | | |]; cbn; auto.
Qed.

(** C7 (amended). While [runMqttMode] is awaited, the Orchestrator falls
    back to HTTP polling exactly when the MQTT client reports an 'error' event
    or a failed subscription (both call [reject]); a 'close' event (dropped
    connection) is only logged and causes no fallback. Once in HTTP polling
    it stays there for the rest of the run: no client event leads back, and
    every polling iteration ends normally. *)
Theorem mqtt_fallback_on_error (evs : list client_event) :
  (orch_run (MqttMode Pending) evs = HttpMode <->
   exists ev, In ev evs /\ rejecting ev) /\
  (orch_run (MqttMode Pending) evs = MqttMode Pending \/
   orch_run (MqttMode Pending) evs = HttpMode) /\
  (forall evs', orch_run HttpMode evs' = HttpMode) /\
  (forall env delay rotate180 s,
     fst (HttpPolling.http_iteration env delay rotate180 s) = Ok tt).
Proof.
  split; [apply orch_run_mqtt|].
  split; [apply orch_run_stays; left; reflexivity|].
  split; [apply orch_run_http|apply http_iteration_total].
Qed.

(** C7 (counterexample). The connection comes up and then drops: the
    MQTT promise stays pending and the Orchestrator never falls back. *)
Lemma mqtt_close_no_fallback :
  orch_run (MqttMode Pending) [CEConnect; CEClose] = MqttMode Pending.
Proof. reflexivity. Qed.

End SessionClaims.

(** * Further properties of the code *)

(** ** Traces *)

Module TraceFacts.
Import Js.
Local Open Scope list_scope.

(** The state after the events [evs], the local variable unchanged. *)
Definition push (s : St) (evs : list event) : St :=
  {| trace := trace s ++ evs; code := code s |}.

Lemma push_push s a b : push (push s a) b = push s (a ++ b).
Proof. unfold push. simpl. now rewrite app_assoc. Qed.

End TraceFacts.

(** ** The raster decoder *)

Module StarPRNTExtras.
Import StarPRNT StarPRNTFacts.
Local Open Scope Z_scope.

Lemma byte_at_some data i c : js_neq (byte_at data i) c = false -> exists b, nth_error data i = Some b /\ byte_Z b = c.
Proof.
  unfold js_neq, byte_at. destruct (nth_error data i) as [b|]; simpl; [|discriminate].
  intros H. exists b. split; [reflexivity|]. apply negb_false_iff, Z.eqb_eq in H. exact H.
Qed.

Lemma byte_Z_inj b c : byte_Z b = byte_Z c -> b = c.
Proof.
  unfold byte_Z. intros H. apply N2Z.inj in H.
  pose proof (Byte.of_to_N b) as Hb. pose proof (Byte.of_to_N c) as Hc.
  rewrite H in Hb. congruence.
Qed.

Lemma header_check_shape data :
  header_mismatch data = false ->
  exists b4 b5 b6 b7 rest, data = header b4 b5 b6 b7 ++ rest.
Proof.
  unfold header_mismatch. intros H.
  repeat rewrite orb_false_iff in H.
  destruct H as [[[[H0 H1] H2] H3] H8].
  apply byte_at_some in H0 as (a0 & E0 & V0).
  apply byte_at_some in H1 as (a1 & E1 & V1).
  apply byte_at_some in H2 as (a2 & E2 & V2).
  apply byte_at_some in H3 as (a3 & E3 & V3).
  apply byte_at_some in H8 as (a8 & E8 & V8).
  do 9 (destruct data as [|? data]; [discriminate E8|]).
  simpl in E0, E1, E2, E3, E8. injection E0 as <-. injection E1 as <-.
  injection E2 as <-. injection E3 as <-. injection E8 as <-.
  apply (byte_Z_inj _ x1b) in V0. apply (byte_Z_inj _ x1d) in V1.
  apply (byte_Z_inj _ x53) in V2. apply (byte_Z_inj _ x01) in V3.
  apply (byte_Z_inj _ x00) in V8. subst.
  do 5 eexists. reflexivity.
Qed.

(** The StarPRNT decoder accepts a buffer (returns an image instead of
    throwing) exactly when it starts with the bytes 1b 1d 53 01, then any
    four bytes, then 00. *)
Theorem starprnt_accepts_iff_magic (data : list byte) :
  (exists img, starprnt_image data = Ok img) <->
  exists b4 b5 b6 b7 rest, data = header b4 b5 b6 b7 ++ rest.
Proof.
  split.
  - intros [img H]. apply header_check_shape.
    unfold starprnt_image in H. destruct (header_mismatch data); [discriminate|reflexivity].
  - intros (b4 & b5 & b6 & b7 & rest & ->).
    unfold starprnt_image. rewrite header_ok. eexists. reflexivity.
Qed.

Lemma pixel_at_app data extra p :
  (p / 8 < List.length data)%nat -> pixel_at (data ++ extra) p = pixel_at data p.
Proof.
  intros H. unfold pixel_at, byte_at. rewrite nth_error_app1 by exact H. reflexivity.
Qed.

(** When a buffer with a valid header already holds the bits of all
    width*height pixels, appending more bytes does not change the decoded
    image: trailing bytes are ignored. *)
Theorem starprnt_trailing_bytes_ignored (data extra : list byte) :
  header_mismatch data = false ->
  (72 + Z.to_nat (header_widthBytes data * 8 * header_height data)
     <= 8 * List.length data)%nat ->
  starprnt_image (data ++ extra) = starprnt_image data.
Proof.
  intros Hm Hlen.
  destruct (header_check_shape data Hm) as (b4 & b5 & b6 & b7 & rest & ->).
  rewrite header_widthBytes_eq, header_height_eq in Hlen.
  rewrite <- app_assoc.
  destruct (starprnt_image_eq b4 b5 b6 b7 (rest ++ extra)) as [E1 L1].
  destruct (starprnt_image_eq b4 b5 b6 b7 rest) as [E2 L2].
  cbv zeta in E1, L1, E2, L2.
  rewrite E1, E2, L1, L2, app_assoc. cbn [pixelData].
  set (n := (Z.to_nat (8 * (byte_Z b4 + 256 * byte_Z b5)) *
             Z.to_nat (byte_Z b6 + 256 * byte_Z b7))%nat) in *.
  assert (Hn : Z.to_nat ((byte_Z b4 + 256 * byte_Z b5) * 8 * (byte_Z b6 + 256 * byte_Z b7)) = n).
  { pose proof (byte_Z_range b4). pose proof (byte_Z_range b5).
    pose proof (byte_Z_range b6). pose proof (byte_Z_range b7).
    subst n. rewrite <- Z2Nat.inj_mul by lia. f_equal. lia. }
  rewrite Hn in Hlen.
  do 2 f_equal.
  rewrite !flat_map_concat_map. f_equal. apply map_ext_in.
  intros k Hk. apply in_seq in Hk. unfold quad.
  rewrite pixel_at_app; [reflexivity|].
  apply Nat.Div0.div_lt_upper_bound. lia.
Qed.

Lemma starprnt_trailing_bytes_ignored_witness :
  (header_mismatch (header x01 x00 x01 x00 ++ [xa5]) = false /\
   (72 + Z.to_nat (header_widthBytes (header x01 x00 x01 x00 ++ [xa5]) * 8 *
                   header_height (header x01 x00 x01 x00 ++ [xa5]))
      <= 8 * List.length (header x01 x00 x01 x00 ++ [xa5]))%nat) /\
  starprnt_image ((header x01 x00 x01 x00 ++ [xa5]) ++ [xff; x00]) =
  starprnt_image (header x01 x00 x01 x00 ++ [xa5]).
Proof.
  assert (H1 : header_mismatch (header x01 x00 x01 x00 ++ [xa5]) = false) by reflexivity.
  assert (H2 : (72 + Z.to_nat (header_widthBytes (header x01 x00 x01 x00 ++ [xa5]) * 8 *
                   header_height (header x01 x00 x01 x00 ++ [xa5]))
      <= 8 * List.length (header x01 x00 x01 x00 ++ [xa5]))%nat) by (vm_compute; lia).
  split; [split; assumption|].
  exact (starprnt_trailing_bytes_ignored _ [xff; x00] H1 H2).
Defined.
End StarPRNTExtras.

(** ** Capability negotiation *)

Module SettingsExtras.
Import Js Js.Notations Settings TraceFacts.
Local Open Scope string_scope.
Local Open Scope list_scope.

(** What one attempt decides when it is the last one: its [try] block's
    value, or the exception that ends it. *)
Definition decide_attempt (r : result Response) : result negotiation :=
  match r with
  | Err e => Err e
  | Ok response =>
      if (status response =? 404)%Z then Ok NegHttp
      else if (status response =? 200)%Z then
        match json response with
        | Ok settings => parseServerSettings settings
        | Err e => Err e
        end
      else if (500 <=? status response)%Z then Err ServerError
      else Err UnexpectedResponse
  end.

Lemma attempt_step env a s : (1 <= a <= 3)%nat ->
  try_catch (attempt_body env a)
    (fun error => if (a =? 3)%nat then throw error else sleep 5000 ;; ret None) s =
  match decide_attempt (env a) with
  | Ok v => (Ok (Some v), push s [EvSettingsGet])
  | Err e => if (a =? 3)%nat then (Err e, push s [EvSettingsGet])
             else (Ok None, push s [EvSettingsGet; EvSleep 5000])
  end.
Proof.
  intros Ha.
  unfold try_catch, attempt_body, decide_attempt, bind, emit, lift, ret, throw, sleep.
  unfold push. destruct (env a) as [resp|e]; cbn [trace code].
  - destruct (status resp =? 404)%Z; [reflexivity|].
    destruct (status resp =? 200)%Z.
    + destruct (json resp) as [j|e]; [destruct (parseServerSettings j) as [v|e]|];
        [reflexivity| |]; destruct (a =? 3)%nat; cbn; rewrite <- ?app_assoc; reflexivity.
    + destruct (500 <=? status resp)%Z.
      * destruct a as [|[|[|[|a]]]]; try lia; cbn; rewrite <- ?app_assoc; reflexivity.
      * destruct (a =? 3)%nat; cbn; rewrite <- ?app_assoc; reflexivity.
  - destruct (a =? 3)%nat; cbn; rewrite <- ?app_assoc; reflexivity.
Qed.

(** getServerSettings settles with the result of the first of its three
    attempts that gets a 404 (HTTP polling) or a 200 whose body parses;
    each earlier failed attempt costs one GET and one 5 s sleep. If none
    settles, it rejects with the third attempt's error after three GETs
    and two sleeps. *)
Theorem getServerSettings_first_decisive (env : settings_env) (s : St) :
  getServerSettings env s =
  match decide_attempt (env 1%nat) with
  | Ok v => (Ok v, push s [EvSettingsGet])
  | Err _ =>
      match decide_attempt (env 2%nat) with
      | Ok v => (Ok v, push s [EvSettingsGet; EvSleep 5000; EvSettingsGet])
      | Err _ => (decide_attempt (env 3%nat),
                  push s [EvSettingsGet; EvSleep 5000; EvSettingsGet;
                          EvSleep 5000; EvSettingsGet])
      end
  end.
Proof.
  unfold getServerSettings. cbn [settings_loop Nat.leb].
  unfold bind at 1. rewrite attempt_step by lia.
  destruct (decide_attempt (env 1%nat)) as [v|e]; [reflexivity|]. cbn [Nat.eqb].
  unfold bind at 1. rewrite attempt_step by lia.
  destruct (decide_attempt (env 2%nat)) as [v|e']; cbn [Nat.eqb];
    [rewrite push_push; reflexivity|].
  unfold bind at 1. rewrite attempt_step by lia. rewrite !push_push.
  destruct (decide_attempt (env 3%nat)); reflexivity.
Qed.

Lemma decide_attempt_defined r : decide_attempt r <> Ok NegUndefined.
Proof.
  unfold decide_attempt, parseServerSettings.
  destruct r as [resp|e]; [|discriminate].
  destruct (status resp =? 404)%Z; [discriminate|].
  destruct (status resp =? 200)%Z; [|destruct (500 <=? status resp)%Z; discriminate].
  destruct (json resp) as [j|e]; [|discriminate].
  destruct (negb _); [discriminate|]. destruct (useTriggerPOST _) as [[]|]; discriminate.
Qed.

(** getServerSettings never resolves with undefined (its loop never runs
    past the third attempt), and it issues between one and three settings
    GETs, separated by 5 s sleeps. *)
Theorem getServerSettings_never_undefined (env : settings_env) (s : St) :
  fst (getServerSettings env s) <> Ok NegUndefined /\
  exists k, (k <= 2)%nat /\
    snd (getServerSettings env s) =
    push s (EvSettingsGet :: List.concat (repeat [EvSleep 5000; EvSettingsGet] k)).
Proof.
  rewrite getServerSettings_first_decisive.
  pose proof (decide_attempt_defined (env 1%nat)).
  pose proof (decide_attempt_defined (env 2%nat)).
  pose proof (decide_attempt_defined (env 3%nat)).
  destruct (decide_attempt (env 1%nat)) as [v|e]; [split; [cbn; congruence|exists 0%nat; split; [lia|reflexivity]]|].
  destruct (decide_attempt (env 2%nat)) as [v|e']; [split; [cbn; congruence|exists 1%nat; split; [lia|reflexivity]]|].
  split; [exact H1|exists 2%nat; split; [lia|reflexivity]].
Qed.

(** When every settings attempt fails (network error, 5xx or other
    unexpected status, bad JSON, or a Trigger POST request), the program
    exits with exit code 1 and does not fall back to HTTP polling. *)
Theorem settings_failure_exits (env : settings_env) (s : St) :
  (forall a, exists e, decide_attempt (env a) = Err e) ->
  MqttConnect.main_mode (fst (getServerSettings env s)) = Orchestrator.Exited.
Proof.
  intros H. rewrite getServerSettings_first_decisive.
  destruct (H 1%nat) as [e1 ->]. destruct (H 2%nat) as [e2 ->].
  destruct (H 3%nat) as [e3 ->]. reflexivity.
Qed.

Lemma settings_failure_exits_witness :
  (forall a, exists e, decide_attempt ((fun _ : nat => Err TransportError) a) = Err e) /\
  MqttConnect.main_mode
    (fst (getServerSettings (fun _ : nat => Err TransportError) Fixtures.st0))
  = Orchestrator.Exited.
Proof.
  assert (H : forall a, exists e,
             decide_attempt ((fun _ : nat => Err TransportError) a) = Err e)
    by (intros a; exists TransportError; reflexivity).
  split; [exact H|exact (settings_failure_exits _ Fixtures.st0 H)].
Defined.

End SettingsExtras.

(** ** The settings endpoint's URL *)

Module SettingsUrlExtras.
Import SettingsUrl.
Local Open Scope string_scope.
Local Open Scope list_scope.

Fixpoint no_slash (s : string) : bool :=
  match s with
  | EmptyString => true
  | String c rest => negb (Ascii.eqb c "/"%char) && no_slash rest
  end.

Lemma append_empty_r (s : string) : (s ++ "")%string = s.
Proof. induction s as [|c s IH]; simpl; [reflexivity|now rewrite IH]. Qed.

Lemma split_slash_nonempty s : exists q qs, split_slash s = q :: qs.
Proof.
  induction s as [|c s (q & qs & IH)]; simpl; [eauto|].
  rewrite IH. destruct (Ascii.eqb c "/"%char); eauto.
Qed.

Lemma split_slash_app p s : no_slash p = true ->
  split_slash (p ++ s)%string = (p ++ hd "" (split_slash s))%string :: tl (split_slash s).
Proof.
  induction p as [|c p IH]; intros Hp; simpl.
  - destruct (split_slash_nonempty s) as (q & qs & ->). reflexivity.
  - simpl in Hp. apply andb_true_iff in Hp as [Hc Hp].
    apply negb_true_iff in Hc. rewrite Hc, IH by exact Hp. reflexivity.
Qed.

Lemma split_join l : l <> [] -> Forall (fun s => no_slash s = true) l ->
  split_slash (join_slash l) = l.
Proof.
  induction l as [|p ps IH]; intros Hne Hall; [contradiction|].
  inversion Hall as [|? ? Hp Hps]; subst.
  destruct ps as [|p' ps'].
  - simpl. rewrite <- (append_empty_r p) at 1. rewrite split_slash_app by exact Hp.
    simpl. now rewrite append_empty_r.
  - change (join_slash (p :: p' :: ps')) with (p ++ "/" ++ join_slash (p' :: ps'))%string.
    rewrite split_slash_app by exact Hp.
    change (split_slash ("/" ++ join_slash (p' :: ps'))%string)
      with ("" :: split_slash (join_slash (p' :: ps'))).
    rewrite IH by (discriminate || exact Hps). simpl. now rewrite append_empty_r.
Qed.

Lemma split_slash_no_slash s : Forall (fun x => no_slash x = true) (split_slash s).
Proof.
  induction s as [|c s IH]; simpl; [repeat constructor|].
  destruct (Ascii.eqb c "/"%char) eqn:Hc; [constructor; [reflexivity|exact IH]|].
  destruct (split_slash s) as [|q qs]; [repeat constructor; simpl; now rewrite Hc|].
  inversion IH; subst. constructor; [simpl; rewrite Hc; assumption|assumption].
Qed.

Definition good_segment (x : string) : Prop := x <> "" /\ no_slash x = true.

Lemma path_segments_good p : Forall good_segment (path_segments p).
Proof.
  unfold path_segments. pose proof (split_slash_no_slash p) as H.
  induction (split_slash p) as [|x xs IH]; simpl; [constructor|].
  inversion H; subst. destruct (x =? "") eqn:E; simpl; [now apply IH|].
  constructor; [split; [apply String.eqb_neq; exact E|assumption]|now apply IH].
Qed.

Lemma filter_good l : Forall good_segment l ->
  filter (fun s => negb (s =? "")) l = l.
Proof.
  induction l as [|x xs IH]; intros H; simpl; [reflexivity|].
  inversion H as [|? ? [Hx _] Hxs]; subst.
  rewrite (proj2 (String.eqb_neq x "") Hx). simpl. now rewrite IH.
Qed.

Lemma path_segments_join l : l <> [] -> Forall good_segment l ->
  path_segments ("/" ++ join_slash l)%string = l.
Proof.
  intros Hne Hg. unfold path_segments. simpl (split_slash ("/" ++ _)).
  rewrite split_join; [|exact Hne|].
  - simpl. now apply filter_good.
  - eapply Forall_impl; [|exact Hg]. intros x [_ H]. exact H.
Qed.

Lemma last_index_ops (l : list string) v : l <> [] ->
  array_at l (Z.of_nat (List.length l) - 1) = Some (last l "") /\
  array_set l (Z.of_nat (List.length l) - 1) v = removelast l ++ [v].
Proof.
  intros Hne. destruct (exists_last Hne) as (l' & a & ->).
  rewrite length_app. simpl List.length.
  replace (Z.of_nat (List.length l' + 1) - 1)%Z with (Z.of_nat (List.length l')) by lia.
  unfold array_at, array_set.
  rewrite (proj2 (Z.ltb_ge _ 0)) by lia. rewrite Nat2Z.id.
  rewrite last_last, removelast_last. split.
  - rewrite nth_error_app2, Nat.sub_diag by lia. reflexivity.
  - rewrite length_app. simpl List.length.
    rewrite (proj2 (Nat.ltb_lt _ _)) by lia.
    rewrite firstn_app, firstn_all, Nat.sub_diag, firstn_O, app_nil_r.
    rewrite skipn_all2 by (rewrite length_app; simpl; lia). reflexivity.
Qed.

(** For a poll URL with at least one non-empty path segment, the settings
    URL keeps the same segments but replaces the last one with cloudprnt-
    setting.json. It keeps the original query and appends mac and
    replaced_path, where replaced_path is the replaced segment, so putting
    it back gives the original segments. *)
Theorem settings_url_round_trip (pollUrl : url) :
  path_segments (pathname pollUrl) <> [] ->
  let segs := path_segments (pathname pollUrl) in
  let u := settings_url pollUrl in
  path_segments (pathname u) = removelast segs ++ ["cloudprnt-setting.json"] /\
  searchParams u = searchParams pollUrl ++
                   [("mac", PRINTER_MAC); ("replaced_path", last segs "")] /\
  removelast (path_segments (pathname u)) ++ [last segs ""] = segs.
Proof.
  intros Hne segs u. change (segs <> []) in Hne.
  destruct (last_index_ops segs "cloudprnt-setting.json" Hne) as [Hat Hset].
  assert (Hp : path_segments (pathname u) = removelast segs ++ ["cloudprnt-setting.json"]).
  { subst u. unfold settings_url. fold segs. cbn [pathname]. rewrite Hset.
    apply path_segments_join; [destruct (removelast segs); discriminate|].
    apply Forall_app. split.
    - pose proof (path_segments_good (pathname pollUrl)) as G. change (Forall good_segment segs) in G.
      destruct (exists_last Hne) as (l' & a & E). rewrite E in G |- *.
      rewrite removelast_last. apply Forall_app in G. exact (proj1 G).
    - constructor; [split; [discriminate|reflexivity]|constructor]. }
  split; [exact Hp|]. split.
  - subst u. unfold settings_url. fold segs. cbn [searchParams]. rewrite Hat. reflexivity.
  - rewrite Hp, removelast_last. symmetry. apply app_removelast_last. exact Hne.
Qed.

Lemma settings_url_round_trip_witness :
  let pollUrl := {| pathname := "/cloudprnt/poll.php"; searchParams := [] |} in
  path_segments (pathname pollUrl) <> [] /\
  (let segs := path_segments (pathname pollUrl) in
   let u := settings_url pollUrl in
   path_segments (pathname u) = removelast segs ++ ["cloudprnt-setting.json"] /\
   searchParams u = searchParams pollUrl ++
                    [("mac", PRINTER_MAC); ("replaced_path", last segs "")] /\
   removelast (path_segments (pathname u)) ++ [last segs ""] = segs).
Proof.
  intros pollUrl.
  assert (H : path_segments (pathname pollUrl) <> []) by (vm_compute; discriminate).
  split; [exact H|exact (settings_url_round_trip pollUrl H)].
Defined.

(** A poll URL whose path has no non-empty segment (such as /) gives a
    settings URL with path / rather than /cloudprnt-setting.json, and
    replaced_path is the string "undefined". *)
Theorem settings_url_root_path (pollUrl : url) :
  path_segments (pathname pollUrl) = [] ->
  settings_url pollUrl =
  {| pathname := "/";
     searchParams := searchParams pollUrl ++
                     [("mac", PRINTER_MAC); ("replaced_path", "undefined")] |}.
Proof. intros H. unfold settings_url. rewrite H. reflexivity. Qed.

Lemma settings_url_root_path_witness :
  let pollUrl := {| pathname := "//"; searchParams := [("id", "7")] |} in
  path_segments (pathname pollUrl) = [] /\
  settings_url pollUrl =
  {| pathname := "/";
     searchParams := searchParams pollUrl ++
                     [("mac", PRINTER_MAC); ("replaced_path", "undefined")] |}.
Proof.
  intros pollUrl.
  assert (H : path_segments (pathname pollUrl) = []) by reflexivity.
  split; [exact H|exact (settings_url_root_path pollUrl H)].
Defined.

End SettingsUrlExtras.

(** ** The MQTT connection options *)

Module MqttConnectExtras.
Import Js Settings Orchestrator MqttConnect.
Local Open Scope string_scope.
Local Open Scope list_scope.

(** When the server lists MQTT and does not request Trigger POST: with no
    mqttConnectionSetting the program falls back to HTTP polling;
    otherwise it enters MQTT mode, connecting to hostName with the printer
    MAC as client id, on port 1883 iff portNumber is absent, 0 or 1883,
    and over mqtts iff useTls is true. *)
Theorem mqtt_entry (settings : ServerSettings) :
  let protocols := match serverSupportProtocol settings with Some l => l | None => [] end in
  let trigger := match settingForMQTT settings with Some m => useTriggerPOST m | None => None end in
  let conn := match settingForMQTT settings with
              | Some m => mqttConnectionSetting m | None => None end in
  includes protocols "MQTT" = true -> trigger <> Some true ->
  (conn = None -> main_mode (parseServerSettings settings) = HttpMode) /\
  (forall ms, conn = Some ms ->
     main_mode (parseServerSettings settings) = MqttMode Pending /\
     exists o, mqtt_options conn = Ok o /\
       host o = hostName ms /\ clientId o = PRINTER_MAC /\
       (port o = 1883%Z <-> portNumber ms = None \/ portNumber ms = Some 0%Z \/
                           portNumber ms = Some 1883%Z) /\
       (protocol o = "mqtts" <-> useTls ms = Some true)).
Proof.
  intros protocols trigger conn Hm Ht.
  assert (Hp : parseServerSettings settings = Ok (NegMqtt conn)).
  { unfold parseServerSettings. fold protocols. rewrite Hm. cbn [negb].
    subst trigger conn. destruct (settingForMQTT settings) as [m|]; cbn.
    - destruct (useTriggerPOST m) as [[]|]; [contradiction|reflexivity|reflexivity].
    - reflexivity. }
  rewrite Hp. split.
  - intros ->. reflexivity.
  - intros ms ->. split; [reflexivity|]. eexists. split; [reflexivity|].
    cbn [host clientId port protocol].
    split; [reflexivity|]. split; [reflexivity|]. split.
    + destruct (portNumber ms) as [p|]; [|split; auto].
      destruct (p =? 0)%Z eqn:E.
      * apply Z.eqb_eq in E. subst. split; auto.
      * apply Z.eqb_neq in E. split.
        -- intros ->. auto.
        -- intros [H|[H|H]]; congruence.
    + destruct (useTls ms) as [[]|]; split; intros H; congruence.
Qed.

Lemma mqtt_entry_witness :
  let settings := {| serverSupportProtocol := Some ["HTTP"; "MQTT"];
                     settingForMQTT := Some {| useTriggerPOST := Some false;
                                               mqttConnectionSetting := None |} |} in
  (includes ["HTTP"; "MQTT"] "MQTT" = true /\ Some false <> Some true) /\
  main_mode (parseServerSettings settings) = HttpMode.
Proof.
  intros settings.
  assert (H1 : includes ["HTTP"; "MQTT"] "MQTT" = true) by reflexivity.
  assert (H2 : Some false <> Some true) by discriminate.
  split; [split; assumption|].
  exact (proj1 (mqtt_entry settings H1 H2) eq_refl).
Defined.
End MqttConnectExtras.

(** ** MQTT message dispatch *)

Module MqttSessionExtras.
Import Js Js.Notations Mqtt MqttSession.
Local Open Scope string_scope.
Local Open Scope list_scope.

(** The MQTT message handler never rejects: a message that does not parse,
    is null, or has a title other than print-job has no effect, and a
    print-job message has exactly the effects of handlePrintJob, whose
    error is swallowed. *)
Theorem on_message_effects env rotate180 msg s :
  on_message env rotate180 msg s =
  (Ok tt, match msg with
          | Ok (PObject (Some t) job) =>
              if String.eqb t "print-job" then snd (handlePrintJob env rotate180 job s)
              else s
          | _ => s
          end).
Proof.
  unfold on_message, try_catch, bind, lift.
  destruct msg as [[|[t|] job|]|e]; cbn [handleMqttMessage]; try reflexivity.
  destruct (String.eqb t "print-job"); [|reflexivity].
  destruct (handlePrintJob env rotate180 job s) as [[[]|e] s']; reflexivity.
Qed.
End MqttSessionExtras.

(** ** Output file names *)

Module FileNameExtras.
Import FileName.
Local Open Scope string_scope.

Lemma has_colon_app a b : has_colon (a ++ b) = has_colon a || has_colon b.
Proof. induction a as [|c a IH]; simpl; [reflexivity|now rewrite IH, orb_assoc]. Qed.

Lemma string_length_app a b :
  String.length (a ++ b) = (String.length a + String.length b)%nat.
Proof. induction a as [|c a IH]; simpl; [reflexivity|now rewrite IH]. Qed.

Lemma replace_colons_spec s :
  has_colon (replace_colons s) = false /\ String.length (replace_colons s) = String.length s.
Proof.
  induction s as [|c s [IH1 IH2]]; simpl; [split; reflexivity|].
  rewrite IH1, IH2, orb_false_r. split; [|reflexivity].
  destruct (Ascii.eqb c ":"%char) eqn:E; [reflexivity|exact E].
Qed.

(** The output file name is the prefix, the ISO timestamp with every ':'
    replaced by '.', and the extension; it contains no ':' when the prefix
    and extension contain none, and its length is the sum of the three
    parts' lengths. *)
Theorem output_file_name_no_colon (prefix iso ext : string) :
  has_colon prefix = false -> has_colon ext = false ->
  has_colon (output_file_name prefix iso ext) = false /\
  String.length (output_file_name prefix iso ext) =
    (String.length prefix + String.length iso + String.length ext)%nat.
Proof.
  intros Hp He. unfold output_file_name.
  destruct (replace_colons_spec iso) as [H1 H2].
  rewrite !has_colon_app, Hp, He, H1, !string_length_app, H2. split; [reflexivity|lia].
Qed.

Lemma output_file_name_no_colon_witness :
  (has_colon "img-" = false /\ has_colon ".png" = false) /\
  has_colon (output_file_name "img-" "2024-01-02T03:04:05.678Z" ".png") = false /\
  String.length (output_file_name "img-" "2024-01-02T03:04:05.678Z" ".png") =
    (String.length "img-" + String.length "2024-01-02T03:04:05.678Z" + String.length ".png")%nat.
Proof.
  assert (H1 : has_colon "img-" = false) by reflexivity.
  assert (H2 : has_colon ".png" = false) by reflexivity.
  split; [split; assumption|].
  exact (output_file_name_no_colon _ "2024-01-02T03:04:05.678Z" _ H1 H2).
Defined.
End FileNameExtras.

(** ** HTTP polling iterations *)

Module PollingExtras.
Import Js Js.Notations HttpPolling JsFacts TraceFacts.
Local Open Scope string_scope.
Local Open Scope list_scope.

Lemma post_then {A} env (k : PollStatus -> M A) h s ps :
  on_post env = Ok ps ->
  try_catch (bind (post env) k) h s = try_catch (k ps) h (push s [EvPost None]).
Proof. intros H. unfold try_catch, bind, post, emit, lift. rewrite H. reflexivity. Qed.

Lemma job_acked_once env tok body delay s :
  quiet body ->
  let (r, s') := try_catch (set_code "500" ;;
                            try_finally body (c <- get_code ;; delete_ env c tok))
                   (fun _ => sleep delay) s in
  r = Ok tt /\
  exists pre post, trace s' = trace s ++ pre ++ EvDelete (code s') tok :: post /\
    no_delete pre /\ (post = [] \/ post = [EvSleep delay]) /\ valid_code (code s').
Proof.
  intros Hq.
  set (s2 := {| trace := trace s; code := "500" |}).
  assert (V2 : valid_code (code s2)) by (right; left; reflexivity).
  destruct (Hq s2 V2) as (ev & E & N & V).
  replace (try_catch (set_code "500" ;;
            try_finally body (c <- get_code ;; delete_ env c tok)) (fun _ => sleep delay) s)
    with (try_catch (try_finally body (c <- get_code ;; delete_ env c tok))
            (fun _ => sleep delay) s2) by reflexivity.
  assert (T2 : trace s2 = trace s) by reflexivity.
  clearbody s2.
  unfold try_catch, try_finally.
  destruct (body s2) as [r1 s3] eqn:Hb. simpl in E, V.
  unfold delete_, bind, get_code, emit, lift. cbn [code trace].
  set (s4 := {| trace := trace s3 ++ [EvDelete (code s3) tok]; code := code s3 |}).
  assert (T4 : trace s4 = trace s ++ ev ++ EvDelete (code s3) tok :: []).
  { subst s4. cbn [trace]. rewrite E, T2, <- !app_assoc. reflexivity. }
  assert (C4 : code s4 = code s3) by reflexivity.
  clearbody s4.
  unfold sleep, emit.
  destruct (on_delete env (code s3)) as [[]|e]; [destruct r1 as [[]|e1]|];
    cbv beta iota; (split; [reflexivity|]); cbn [trace code]; rewrite C4.
  - exists ev, []. split; [exact T4|]. auto.
  - exists ev, [EvSleep delay].
    split; [rewrite T4, <- !app_assoc; reflexivity|]. auto.
  - exists ev, [EvSleep delay].
    split; [rewrite T4, <- !app_assoc; reflexivity|]. auto.
Qed.

Ltac ack_from_shape :=
  match goal with
  | |- context [try_catch (set_code "500" ;; try_finally ?b (c <- get_code ;; delete_ ?env c ?tok))
                  (fun _ => sleep ?delay) ?s] =>
      let H := fresh in
      assert (H : quiet b) by (unfold get, write; repeat quiet_step);
      pose proof (job_acked_once env tok b delay s H) as J;
      destruct (try_catch _ _ s) as [r s'];
      destruct J as [Jr (pre & post & JT & JN & JP & JV)];
      split; [exact Jr|]; exists pre, post; split; [rewrite JT; cbn [push trace]; rewrite <- app_assoc; reflexivity|];
      auto
  end.

(** In the image/png-only emulator, an iteration that receives a ready job
    never rejects and sends exactly one DELETE for the job token, carrying
    the final code (200, 500 or 510), after the status POST; at most a
    sleep follows it. *)
Theorem pngonly_job_acked_once (env : http_env) (delay : Z) (rotate180 : bool)
    (ps : PollStatus) (s0 : St) :
  on_post env = Ok ps -> jobReady ps = true ->
  let (r, s) := PngOnly.iteration env delay rotate180 s0 in
  r = Ok tt /\
  exists pre post,
    trace s = trace s0 ++ EvPost None :: pre ++ EvDelete (code s) (jobToken ps) :: post /\
    no_delete pre /\ (post = [] \/ post = [EvSleep delay]) /\ valid_code (code s).
Proof.
  intros Hpost Hready. unfold PngOnly.iteration. rewrite (post_then _ _ _ _ _ Hpost).
  cbv beta. rewrite Hready. cbn [negb]. ack_from_shape.
Qed.

(** In the text/plain emulator, an iteration that receives a ready job
    never rejects and sends exactly one DELETE for the job token, carrying
    the final code (200, 500 or 510), after the status POST; at most a
    sleep follows it. *)
Theorem standalone_job_acked_once (env : http_env) (delay : Z)
    (ps : PollStatus) (s0 : St) :
  on_post env = Ok ps -> jobReady ps = true ->
  let (r, s) := Standalone.iteration env delay s0 in
  r = Ok tt /\
  exists pre post,
    trace s = trace s0 ++ EvPost None :: pre ++ EvDelete (code s) (jobToken ps) :: post /\
    no_delete pre /\ (post = [] \/ post = [EvSleep delay]) /\ valid_code (code s).
Proof.
  intros Hpost Hready. unfold Standalone.iteration. rewrite (post_then _ _ _ _ _ Hpost).
  cbv beta. rewrite Hready. cbn [negb]. ack_from_shape.
Qed.

Ltac run_all :=
  unfold PngOnly.iteration, Standalone.iteration, Standalone.post_actions,
    http_iteration, try_catch, try_finally, service_body, post, get, write,
    delete_, sleep, bind, emit, lift, set_code, get_code, throw, deref, ret.

(** In the image/png-only emulator, when mediaTypes is absent or includes
    image/png and the GET, optional rotation, write and DELETE succeed, an
    iteration issues POST, GET (type image/png), write and DELETE with
    code 200, in that order, and does not sleep. *)
Theorem pngonly_job_done (env : http_env) (delay : Z) (rotate180 : bool)
    (ps : PollStatus) (d d' : list byte) (s0 : St) :
  on_post env = Ok ps -> jobReady ps = true ->
  match mediaTypes ps with Some mt => includes mt png_type = true | None => True end ->
  on_get env png_type = Ok d ->
  (if rotate180 then match png_decode env d with
                     | Ok img => png_encode env (rotate env img)
                     | Err e => Err e
                     end
   else Ok d) = Ok d' ->
  on_write env d' = Ok tt -> on_delete env "200" = Ok tt ->
  PngOnly.iteration env delay rotate180 s0 =
  (Ok tt, {| trace := trace s0 ++ [EvPost None; EvGet png_type (jobToken ps); EvWrite;
                                   EvDelete "200" (jobToken ps)];
             code := "200" |}).
Proof.
  intros Hpost Hready Hmt Hget Hrot Hwrite Hdel.
  run_all. rewrite Hpost. cbn -[includes]. rewrite Hready. cbn -[includes].
  destruct (mediaTypes ps) as [mt|]; [rewrite Hmt|]; cbn -[includes];
    rewrite Hget; cbn -[includes];
    (destruct rotate180;
     [destruct (png_decode env d) as [img|e]; [|discriminate]; cbn; rewrite Hrot
     |injection Hrot as <-];
     cbn; rewrite Hwrite; cbn; rewrite Hdel; cbn;
     rewrite <- !app_assoc; reflexivity).
Qed.

(** In the image/png-only emulator, a ready job whose mediaTypes does not
    include image/png is not downloaded: the iteration sends DELETE with
    code 510 and sleeps. *)
Theorem pngonly_unsupported_510 (env : http_env) (delay : Z) (rotate180 : bool)
    (ps : PollStatus) (mt : list string) (s0 : St) :
  on_post env = Ok ps -> jobReady ps = true -> mediaTypes ps = Some mt ->
  includes mt png_type = false ->
  trace (snd (PngOnly.iteration env delay rotate180 s0)) =
  trace s0 ++ [EvPost None; EvDelete "510" (jobToken ps); EvSleep delay].
Proof.
  intros Hpost Hready Hmt Hinc.
  run_all. rewrite Hpost. cbn -[includes]. rewrite Hready. cbn -[includes].
  rewrite Hmt, Hinc. cbn.
  destruct (on_delete env "510"); cbn; rewrite <- !app_assoc; reflexivity.
Qed.

(** In the text/plain emulator, when mediaTypes is absent or includes
    text/plain and the GET, write and DELETE succeed, an iteration issues
    POST, GET (type text/plain), write and DELETE with code 200, in that
    order, and does not sleep. *)
Theorem standalone_job_done (env : http_env) (delay : Z) (ps : PollStatus)
    (d : list byte) (s0 : St) :
  on_post env = Ok ps -> jobReady ps = true ->
  match mediaTypes ps with Some mt => includes mt "text/plain" = true | None => True end ->
  on_get env "text/plain" = Ok d -> on_write env d = Ok tt ->
  on_delete env "200" = Ok tt ->
  Standalone.iteration env delay s0 =
  (Ok tt, {| trace := trace s0 ++ [EvPost None; EvGet "text/plain" (jobToken ps); EvWrite;
                                   EvDelete "200" (jobToken ps)];
             code := "200" |}).
Proof.
  intros Hpost Hready Hmt Hget Hwrite Hdel.
  run_all. rewrite Hpost. cbn -[includes]. rewrite Hready. cbn -[includes].
  destruct (mediaTypes ps) as [mt|]; [rewrite Hmt|]; cbn -[includes];
    rewrite Hget; cbn; rewrite Hwrite; cbn; rewrite Hdel; cbn;
    rewrite <- !app_assoc; reflexivity.
Qed.

(** In the text/plain emulator, a ready job whose mediaTypes does not
    include text/plain is not downloaded: the iteration sends DELETE with
    code 510 and sleeps. *)
Theorem standalone_unsupported_510 (env : http_env) (delay : Z)
    (ps : PollStatus) (mt : list string) (s0 : St) :
  on_post env = Ok ps -> jobReady ps = true -> mediaTypes ps = Some mt ->
  includes mt "text/plain" = false ->
  trace (snd (Standalone.iteration env delay s0)) =
  trace s0 ++ [EvPost None; EvDelete "510" (jobToken ps); EvSleep delay].
Proof.
  intros Hpost Hready Hmt Hinc.
  run_all. rewrite Hpost. cbn -[includes]. rewrite Hready. cbn -[includes].
  rewrite Hmt, Hinc. cbn.
  destruct (on_delete env "510"); cbn; rewrite <- !app_assoc; reflexivity.
Qed.

(** In the text/plain emulator, when no job is ready and clientAction is
    absent or empty, an iteration sends only the status POST and sleeps,
    without a follow-up POST. *)
Theorem standalone_idle_just_sleeps (env : http_env) (delay : Z)
    (ps : PollStatus) (s0 : St) :
  on_post env = Ok ps -> jobReady ps = false ->
  clientAction ps = None \/ clientAction ps = Some [] ->
  Standalone.iteration env delay s0 =
  (Ok tt, {| trace := trace s0 ++ [EvPost None; EvSleep delay]; code := code s0 |}).
Proof.
  intros Hpost Hready Hca.
  run_all. rewrite Hpost. cbn -[includes Standalone.client_action_answers].
  rewrite Hready. cbn -[includes Standalone.client_action_answers].
  destruct Hca as [-> | ->]; cbn; rewrite <- app_assoc; reflexivity.
Qed.

(** In runHttpPolling, when mediaTypes includes StarPRNT or image/png and
    every step succeeds, the job is fetched with StarPRNT as the type if
    listed (else image/png), and the iteration issues POST, that GET,
    write and DELETE with code 200, without sleeping. *)
Theorem http_job_done (env : http_env) (delay : Z) (rotate180 : bool)
    (ps : PollStatus) (mt : list string) (raw png0 png1 : list byte) (s0 : St) :
  on_post env = Ok ps -> jobReady ps = true -> mediaTypes ps = Some mt ->
  includes mt starprnt_type || includes mt png_type = true ->
  let type := if includes mt starprnt_type then starprnt_type else png_type in
  on_get env type = Ok raw ->
  (if includes mt starprnt_type
   then StarPRNT.convertStarprntToPng (png_encode env) (rotate env) raw false
   else Ok raw) = Ok png0 ->
  (if rotate180 then match png_decode env png0 with
                     | Ok img => png_encode env (rotate env img)
                     | Err e => Err e
                     end
   else Ok png0) = Ok png1 ->
  on_write env png1 = Ok tt -> on_delete env "200" = Ok tt ->
  http_iteration env delay rotate180 s0 =
  (Ok tt, {| trace := trace s0 ++ [EvPost None; EvGet type (jobToken ps); EvWrite;
                                   EvDelete "200" (jobToken ps)];
             code := "200" |}).
Proof.
  intros Hpost Hready Hmt Hsup type Hget Hconv Hrot Hwrite Hdel.
  run_all. rewrite Hpost. cbn -[includes StarPRNT.convertStarprntToPng].
  rewrite Hready. cbn -[includes StarPRNT.convertStarprntToPng].
  rewrite Hmt, Hsup. cbn -[includes StarPRNT.convertStarprntToPng].
  subst type.
  destruct (includes mt starprnt_type);
    [rewrite Hget; cbn -[StarPRNT.convertStarprntToPng]; rewrite Hconv
    |injection Hconv as ->; rewrite Hget]; cbn;
    (destruct rotate180;
     [destruct (png_decode env png0) as [img|e]; [|discriminate]; cbn; rewrite Hrot
     |injection Hrot as <-];
     cbn; rewrite Hwrite; cbn; rewrite Hdel; cbn;
     rewrite <- !app_assoc; reflexivity).
Qed.

(** In runHttpPolling, a StarPRNT job whose data fails the decoder's
    header check is answered with DELETE code 500 after its GET, then the
    loop sleeps. *)
Theorem http_malformed_raster_500 (env : http_env) (delay : Z) (rotate180 : bool)
    (ps : PollStatus) (mt : list string) (raw : list byte) (s0 : St) :
  on_post env = Ok ps -> jobReady ps = true -> mediaTypes ps = Some mt ->
  includes mt starprnt_type = true ->
  on_get env starprnt_type = Ok raw -> StarPRNT.header_mismatch raw = true ->
  trace (snd (http_iteration env delay rotate180 s0)) =
  trace s0 ++ [EvPost None; EvGet starprnt_type (jobToken ps);
               EvDelete "500" (jobToken ps); EvSleep delay].
Proof.
  intros Hpost Hready Hmt Hinc Hget Hbad.
  run_all. rewrite Hpost. cbn -[includes StarPRNT.convertStarprntToPng].
  rewrite Hready. cbn -[includes StarPRNT.convertStarprntToPng].
  rewrite Hmt, Hinc. cbn -[StarPRNT.convertStarprntToPng].
  rewrite Hget. unfold StarPRNT.convertStarprntToPng, StarPRNT.starprnt_image.
  rewrite Hbad. cbn.
  destruct (on_delete env "500"); cbn; rewrite <- !app_assoc; reflexivity.
Qed.

Lemma pngonly_job_acked_once_witness :
  on_post (Fixtures.env_of (Fixtures.poll_status true (Some [png_type]) None)) =
    Ok (Fixtures.poll_status true (Some [png_type]) None) /\
  jobReady (Fixtures.poll_status true (Some [png_type]) None) = true /\
  let (r, s) := PngOnly.iteration
                  (Fixtures.env_of (Fixtures.poll_status true (Some [png_type]) None))
                  5000 false Fixtures.st0 in
  r = Ok tt /\
  exists pre post,
    trace s = trace Fixtures.st0 ++ EvPost None :: pre ++
              EvDelete (code s) (jobToken (Fixtures.poll_status true (Some [png_type]) None))
              :: post /\
    no_delete pre /\ (post = [] \/ post = [EvSleep 5000]) /\ valid_code (code s).
Proof.
  split; [reflexivity|]. split; [reflexivity|].
  exact (pngonly_job_acked_once
           (Fixtures.env_of (Fixtures.poll_status true (Some [png_type]) None)) 5000 false
           (Fixtures.poll_status true (Some [png_type]) None) Fixtures.st0 eq_refl eq_refl).
Defined.

Lemma standalone_job_acked_once_witness :
  on_post (Fixtures.env_of (Fixtures.poll_status true (Some ["text/plain"]) None)) =
    Ok (Fixtures.poll_status true (Some ["text/plain"]) None) /\
  jobReady (Fixtures.poll_status true (Some ["text/plain"]) None) = true /\
  let (r, s) := Standalone.iteration
                  (Fixtures.env_of (Fixtures.poll_status true (Some ["text/plain"]) None))
                  5000 Fixtures.st0 in
  r = Ok tt /\
  exists pre post,
    trace s = trace Fixtures.st0 ++ EvPost None :: pre ++
              EvDelete (code s)
                (jobToken (Fixtures.poll_status true (Some ["text/plain"]) None))
              :: post /\
    no_delete pre /\ (post = [] \/ post = [EvSleep 5000]) /\ valid_code (code s).
Proof.
  split; [reflexivity|]. split; [reflexivity|].
  exact (standalone_job_acked_once
           (Fixtures.env_of (Fixtures.poll_status true (Some ["text/plain"]) None)) 5000
           (Fixtures.poll_status true (Some ["text/plain"]) None) Fixtures.st0
           eq_refl eq_refl).
Defined.

Lemma pngonly_job_done_witness :
  includes [png_type] png_type = true /\
  PngOnly.iteration (Fixtures.env_of (Fixtures.poll_status true (Some [png_type]) None))
    5000 false Fixtures.st0 =
  (Ok tt, {| trace := trace Fixtures.st0 ++
               [EvPost None; EvGet png_type (Some "job-1"); EvWrite;
                EvDelete "200" (Some "job-1")];
             code := "200" |}).
Proof.
  split; [reflexivity|].
  exact (pngonly_job_done
           (Fixtures.env_of (Fixtures.poll_status true (Some [png_type]) None)) 5000 false
           (Fixtures.poll_status true (Some [png_type]) None) [] [] Fixtures.st0
           eq_refl eq_refl eq_refl eq_refl eq_refl eq_refl eq_refl).
Defined.

Lemma pngonly_unsupported_510_witness :
  includes ["text/plain"] png_type = false /\
  trace (snd (PngOnly.iteration
                (Fixtures.env_of (Fixtures.poll_status true (Some ["text/plain"]) None))
                5000 false Fixtures.st0)) =
  trace Fixtures.st0 ++ [EvPost None; EvDelete "510" (Some "job-1"); EvSleep 5000].
Proof.
  split; [reflexivity|].
  exact (pngonly_unsupported_510
           (Fixtures.env_of (Fixtures.poll_status true (Some ["text/plain"]) None)) 5000 false
           (Fixtures.poll_status true (Some ["text/plain"]) None) ["text/plain"] Fixtures.st0
           eq_refl eq_refl eq_refl eq_refl).
Defined.

Lemma standalone_job_done_witness :
  Standalone.iteration (Fixtures.env_of (Fixtures.poll_status true None None))
    5000 Fixtures.st0 =
  (Ok tt, {| trace := trace Fixtures.st0 ++
               [EvPost None; EvGet "text/plain" (Some "job-1"); EvWrite;
                EvDelete "200" (Some "job-1")];
             code := "200" |}).
Proof.
  exact (standalone_job_done
           (Fixtures.env_of (Fixtures.poll_status true None None)) 5000
           (Fixtures.poll_status true None None) [] Fixtures.st0
           eq_refl eq_refl I eq_refl eq_refl eq_refl).
Defined.

Lemma standalone_unsupported_510_witness :
  includes [png_type] "text/plain" = false /\
  trace (snd (Standalone.iteration
                (Fixtures.env_of (Fixtures.poll_status true (Some [png_type]) None))
                5000 Fixtures.st0)) =
  trace Fixtures.st0 ++ [EvPost None; EvDelete "510" (Some "job-1"); EvSleep 5000].
Proof.
  split; [reflexivity|].
  exact (standalone_unsupported_510
           (Fixtures.env_of (Fixtures.poll_status true (Some [png_type]) None)) 5000
           (Fixtures.poll_status true (Some [png_type]) None) [png_type] Fixtures.st0
           eq_refl eq_refl eq_refl eq_refl).
Defined.

Lemma standalone_idle_just_sleeps_witness :
  Standalone.iteration (Fixtures.env_of (Fixtures.poll_status false None (Some [])))
    5000 Fixtures.st0 =
  (Ok tt, {| trace := trace Fixtures.st0 ++ [EvPost None; EvSleep 5000];
             code := code Fixtures.st0 |}).
Proof.
  exact (standalone_idle_just_sleeps
           (Fixtures.env_of (Fixtures.poll_status false None (Some []))) 5000
           (Fixtures.poll_status false None (Some [])) Fixtures.st0
           eq_refl eq_refl (or_intror eq_refl)).
Defined.

Lemma http_job_done_witness :
  includes [png_type] starprnt_type || includes [png_type] png_type = true /\
  http_iteration (Fixtures.env_of (Fixtures.poll_status true (Some [png_type]) None))
    5000 false Fixtures.st0 =
  (Ok tt, {| trace := trace Fixtures.st0 ++
               [EvPost None; EvGet png_type (Some "job-1"); EvWrite;
                EvDelete "200" (Some "job-1")];
             code := "200" |}).
Proof.
  split; [reflexivity|].
  exact (http_job_done
           (Fixtures.env_of (Fixtures.poll_status true (Some [png_type]) None)) 5000 false
           (Fixtures.poll_status true (Some [png_type]) None) [png_type] [] [] []
           Fixtures.st0 eq_refl eq_refl eq_refl eq_refl eq_refl eq_refl eq_refl
           eq_refl eq_refl).
Defined.

Lemma http_malformed_raster_500_witness :
  StarPRNT.header_mismatch [] = true /\
  trace (snd (http_iteration
                (Fixtures.env_of (Fixtures.poll_status true (Some [starprnt_type]) None))
                5000 false Fixtures.st0)) =
  trace Fixtures.st0 ++ [EvPost None; EvGet starprnt_type (Some "job-1");
                         EvDelete "500" (Some "job-1"); EvSleep 5000].
Proof.
  split; [reflexivity|].
  exact (http_malformed_raster_500
           (Fixtures.env_of (Fixtures.poll_status true (Some [starprnt_type]) None)) 5000
           false (Fixtures.poll_status true (Some [starprnt_type]) None) [starprnt_type] []
           Fixtures.st0 eq_refl eq_refl eq_refl eq_refl eq_refl eq_refl).
Defined.

End PollingExtras.
